(** * CK Assistant: the tool-calling orchestration loop

    A shallow embedding of [cka_assistant/template_exchange_client.py],
    [cka_assistant/gemini_interaction.py] and [main.py].

    The two remote parties (the template service reached through
    [requests], and the conversational agent reached through a chat
    session) are oracles acting on an abstract world; every exchange
    with either of them is recorded in a chronological trace, and
    everything written with [print] is recorded in [stdout].  Python
    exceptions are an outcome of the computation, and [try]/[except]
    is a combinator on computations. *)

From Stdlib Require Import ZArith String Ascii DecimalString.
From stdpp Require Import gmap strings list fin_maps.

Local Open Scope Z_scope.
Local Open Scope string_scope.
Local Open Scope list_scope.

#[local] Set Warnings "-register-all".

(** ** Python values *)

(** Values that travel through the program untyped: the arguments of a
    function call requested by the agent, and decoded JSON bodies.
    Numbers are kept as integers; no definition below inspects one.  A
    nested dict is an association list, in insertion order. *)
Inductive pyval : Type :=
  | PNone
  | PBool (b : bool)
  | PNum (n : Z)
  | PStr (s : string)
  | PList (l : list pyval)
  | PDict (d : list (string * pyval)).

(** [x is not None] *)
Definition is_not_None (v : pyval) : bool :=
  match v with
  | PNone => false
  | _ => true
  end.

(** [str(n)] of a Python [int]. *)
Definition str_of_int (n : Z) : string :=
  NilZero.string_of_int (Z.to_int n).

(** ** Strings

    Python strings are modelled by their ASCII range: [strip] removes
    the characters [str.isspace] accepts there, and [lower] touches the
    letters [A]-[Z] only. *)

Definition newline : string := String (ascii_of_nat 10) "".

Definition is_space (c : ascii) : bool :=
  let n := nat_of_ascii c in
  ((9 <=? n)%nat && (n <=? 13)%nat) || ((28 <=? n)%nat && (n <=? 32)%nat).

Fixpoint lstrip (s : string) : string :=
  match s with
  | String c s' => if is_space c then lstrip s' else s
  | EmptyString => EmptyString
  end.

Fixpoint rstrip (s : string) : string :=
  match s with
  | String c s' =>
      match rstrip s' with
      | EmptyString => if is_space c then EmptyString
                       else String c EmptyString
      | r => String c r
      end
  | EmptyString => EmptyString
  end.

(** [s.strip()] *)
Definition strip (s : string) : string := rstrip (lstrip s).

Definition lower_ascii (c : ascii) : ascii :=
  let n := nat_of_ascii c in
  if ((65 <=? n)%nat && (n <=? 90)%nat) then ascii_of_nat (n + 32) else c.

(** [s.lower()] *)
Fixpoint lower (s : string) : string :=
  match s with
  | String c s' => String (lower_ascii c) (lower s')
  | EmptyString => EmptyString
  end.

(** ["".join(l)] *)
Definition join (l : list string) : string :=
  foldr String.append "" l.

(** [c * n] for a one-character string *)
Fixpoint repeat_string (c : string) (n : nat) : string :=
  match n with
  | O => ""
  | S n' => c +:+ repeat_string c n'
  end.

(** A string is falsy exactly when it is empty. *)
Definition truthy (s : string) : bool :=
  match s with
  | EmptyString => false
  | String _ _ => true
  end.

(** ** Exceptions *)

(** The three classes of [template_exchange_client], and every other
    subclass of [Exception] (a failure of [requests], of JSON decoding,
    of the agent's library, an [IndexError], ...).  Each carries the
    text that [str(e)] returns. *)
Inductive exn : Type :=
  | TemplateAPIError (msg : string)
  | TemplateNotFoundError (msg : string)
  | TemplateAuthenticationError (msg : string)
  | PyException (msg : string).

(** [str(e)] *)
Definition str_exn (e : exn) : string :=
  match e with
  | TemplateAPIError m => m
  | TemplateNotFoundError m => m
  | TemplateAuthenticationError m => m
  | PyException m => m
  end.

(** ** The two remote parties *)

(** What [requests.get] / [requests.post] are called with. *)
Inductive http_request : Type :=
  | HttpGet (url : string) (headers : gmap string string)
            (params : gmap string pyval)
  | HttpPost (url : string) (headers : gmap string string)
             (json : gmap string pyval).

(** [response.json()]: the decoded body, or the message of the error
    the decoder raises. *)
Inductive json_result : Type :=
  | JsonValue (v : pyval)
  | JsonError (msg : string).

Record http_response : Type := HttpResponse {
  status_code : Z;
  text : string;
  json : json_result
}.

(** A call of [requests] either returns a response object or raises
    (no connection, ...). *)
Inductive http_outcome : Type :=
  | HttpReplies (r : http_response)
  | HttpFails (msg : string).

(** One [Part] of the agent's turn.  [Part] is a protocol-buffer
    message: exactly one of its payload fields is set, and reading a
    field that is not set gives the empty default, so [hasattr] holds of
    every field.  [OtherPart] stands for the payloads the program never
    reads (inline data, code, ...). *)
Inductive part : Type :=
  | TextPart (t : string)
  | FunctionCallPart (name : string) (args : gmap string pyval)
  | OtherPart.

(** [part.text] *)
Definition part_text (p : part) : string :=
  match p with
  | TextPart t => t
  | _ => ""
  end.

(** [part.function_call.name] *)
Definition function_call_name (p : part) : string :=
  match p with
  | FunctionCallPart name _ => name
  | _ => ""
  end.

(** [dict(part.function_call.args)] *)
Definition function_call_args (p : part) : gmap string pyval :=
  match p with
  | FunctionCallPart _ args => args
  | _ => ∅
  end.

(** Reading an attribute of a library object: it may be absent, hold a
    value, or be a property whose getter raises. *)
Inductive attribute (A : Type) : Type :=
  | AttrAbsent
  | AttrValue (a : A)
  | AttrRaises (msg : string).
Arguments AttrAbsent {A}.
Arguments AttrValue {A} a.
Arguments AttrRaises {A} msg.

(** The agent's reply: [candidates[i].content.parts] for each candidate,
    and the library's [response.text] accessor. *)
Record response : Type := Response {
  candidates : list (list part);
  response_text : attribute string
}.

(** What [chat.send_message] is called with. *)
Inductive message : Type :=
  | UserPrompt (prompt : string)
  | FunctionResponse (name : string) (content : gmap string pyval).

Inductive agent_outcome : Type :=
  | AgentReplies (r : response)
  | AgentFails (msg : string).

(** Every exchange with a remote party, with what came back. *)
Inductive event : Type :=
  | HttpCall (req : http_request) (res : http_outcome)
  | AgentCall (msg : message) (res : agent_outcome).

Definition http_requests (tr : list event) : list http_request :=
  omap (fun ev => match ev with
                  | HttpCall req _ => Some req
                  | AgentCall _ _ => None
                  end) tr.

Definition agent_messages (tr : list event) : list message :=
  omap (fun ev => match ev with
                  | AgentCall msg _ => Some msg
                  | HttpCall _ _ => None
                  end) tr.

Definition agent_failed (ev : event) : bool :=
  match ev with
  | AgentCall _ (AgentFails _) => true
  | _ => false
  end.

(** ** Computations *)

Inductive outcome (A : Type) : Type :=
  | Returns (a : A)
  | Raises (e : exn)
  | Diverges.
Arguments Returns {A} a.
Arguments Raises {A} e.
Arguments Diverges {A}.

(** ** config_loader.py *)

(** The three values the module leaves in its globals. *)
Record config : Type := Config {
  config_GEMINI_API_KEY : string;
  config_TEMPLATE_EXCHANGE_API_KEY : string;
  config_TEMPLATE_EXCHANGE_API_BASE_URL : string
}.

(** [not os.getenv(name)]: the variable is unset, or set to the empty
    string. *)
Definition not_set (value : option string) : bool :=
  match value with
  | None => true
  | Some v => negb (truthy v)
  end.

(** The body of the module, run at import.  [environ] is the process
    environment as [os.getenv] reads it once [load_dotenv()] has
    returned; the result is the [EnvironmentError] that stops the
    import, or the values of the three globals. *)
Definition config_loader (environ : gmap string string) : exn + config :=
  let gemini_api_key := environ !! "GEMINI_API_KEY" in
  if not_set gemini_api_key then
    inl (PyException
           "GEMINI_API_KEY not found in environment variables or .env file.")
  else
    let template_exchange_api_key := environ !! "TEMPLATE_EXCHANGE_API_KEY" in
    if not_set template_exchange_api_key then
      inl (PyException
             "TEMPLATE_EXCHANGE_API_KEY not found in environment variables or .env file.")
    else
      let template_exchange_api_base_url :=
        environ !! "TEMPLATE_EXCHANGE_API_BASE_URL" in
      if not_set template_exchange_api_base_url then
        inl (PyException
               "TEMPLATE_EXCHANGE_API_BASE_URL not found in environment variables or .env file.")
      else
        inr {| config_GEMINI_API_KEY := default "" gemini_api_key;
               config_TEMPLATE_EXCHANGE_API_KEY :=
                 default "" template_exchange_api_key;
               config_TEMPLATE_EXCHANGE_API_BASE_URL :=
                 default "" template_exchange_api_base_url |}.

(** The environment of the program: the state of everything outside the
    process, how the two remote parties answer, the configuration
    values of [config_loader], and Python's formatting of the values
    whose [str] is not fixed here (numbers, lists, dicts). *)
Class Environment : Type := {
  World : Type;
  http_send : http_request -> World -> http_outcome * World;
  agent_send : message -> World -> agent_outcome * World;
  TEMPLATE_EXCHANGE_API_KEY : string;
  TEMPLATE_EXCHANGE_API_BASE_URL : string;
  GEMINI_API_KEY : string;
  py_repr : pyval -> string
}.

Section Program.

Context `{env : Environment}.

Record state : Type := State {
  world : World;
  trace : list event;
  stdout : list string
}.

Definition M (A : Type) : Type := state -> outcome A * state.

Definition ret {A} (a : A) : M A := fun st => (Returns a, st).

Definition raise {A} (e : exn) : M A := fun st => (Raises e, st).

Definition diverge {A} : M A := fun st => (Diverges, st).

Definition bind {A B} (m : M A) (k : A -> M B) : M B :=
  fun st =>
    match m st with
    | (Returns a, st') => k a st'
    | (Raises e, st') => (Raises e, st')
    | (Diverges, st') => (Diverges, st')
    end.

(** [try: m  except Exception as e: handler e] *)
Definition try_except {A} (m : M A) (handler : exn -> M A) : M A :=
  fun st =>
    match m st with
    | (Raises e, st') => handler e st'
    | r => r
    end.

Notation "x <- m ;; k" := (bind m (fun x => k))
  (at level 100, m at next level, right associativity).
Notation "m ;;; k" := (bind m (fun _ => k))
  (at level 100, right associativity).

(** [print(line)] *)
Definition print (line : string) : M unit :=
  fun st => (Returns tt,
             {| world := world st; trace := trace st;
                stdout := stdout st ++ [line] |}).

(** [requests.get(...)] / [requests.post(...)]: one network call. *)
Definition requests (req : http_request) : M http_response :=
  fun st =>
    let (res, w) := http_send req (world st) in
    let st' := {| world := w; trace := trace st ++ [HttpCall req res];
                  stdout := stdout st |} in
    match res with
    | HttpReplies r => (Returns r, st')
    | HttpFails msg => (Raises (PyException msg), st')
    end.

(** [chat.send_message(...)]: one exchange with the agent. *)
Definition send_message (msg : message) : M response :=
  fun st =>
    let (res, w) := agent_send msg (world st) in
    let st' := {| world := w; trace := trace st ++ [AgentCall msg res];
                  stdout := stdout st |} in
    match res with
    | AgentReplies r => (Returns r, st')
    | AgentFails m => (Raises (PyException m), st')
    end.

(** [response.json()] *)
Definition response_json (r : http_response) : M pyval :=
  match json r with
  | JsonValue v => ret v
  | JsonError msg => raise (PyException msg)
  end.

(** [str(v)], as an f-string formats [v]. *)
Definition py_str (v : pyval) : string :=
  match v with
  | PNone => "None"
  | PBool true => "True"
  | PBool false => "False"
  | PStr s => s
  | _ => py_repr v
  end.

(** ** template_exchange_client.py *)

Definition get_template_request (session_id template_type : pyval)
  : http_request :=
  HttpGet (TEMPLATE_EXCHANGE_API_BASE_URL +:+ "/api/templates/"
             +:+ py_str session_id)
          {[ "x-api-key" := TEMPLATE_EXCHANGE_API_KEY ]}
          {[ "type" := template_type ]}.

Definition api_request_failed (r : http_response) : string :=
  "API request failed with status " +:+ str_of_int (status_code r)
    +:+ ": " +:+ text r.

Definition get_template (session_id template_type : pyval) : M pyval :=
  r <- requests (get_template_request session_id template_type) ;;
  if (status_code r =? 200)%Z then response_json r
  else if (status_code r =? 404)%Z then
    raise (TemplateNotFoundError
             ("No " +:+ py_str template_type
                +:+ " template found for session " +:+ py_str session_id))
  else if (status_code r =? 401)%Z then
    raise (TemplateAuthenticationError
             "Authentication failed. Check API key.")
  else raise (TemplateAPIError (api_request_failed r)).

(** The [payload] dict of [create_template]. *)
Definition create_template_payload
    (session_id template_type content status metadata : pyval)
  : gmap string pyval :=
  let payload : gmap string pyval :=
    {[ "sessionId" := session_id; "type" := template_type;
       "content" := content; "status" := status ]} in
  if is_not_None metadata then <[ "metadata" := metadata ]> payload
  else payload.

Definition create_template_request
    (session_id template_type content status metadata : pyval)
  : http_request :=
  HttpPost (TEMPLATE_EXCHANGE_API_BASE_URL +:+ "/api/templates")
           {[ "x-api-key" := TEMPLATE_EXCHANGE_API_KEY;
              "Content-Type" := "application/json" ]}
           (create_template_payload session_id template_type content
                                    status metadata).

Definition create_template
    (session_id template_type content status metadata : pyval) : M pyval :=
  r <- requests (create_template_request session_id template_type content
                                         status metadata) ;;
  if (status_code r =? 201)%Z then response_json r
  else if (status_code r =? 401)%Z then
    raise (TemplateAuthenticationError
             "Authentication failed. Check API key.")
  else raise (TemplateAPIError (api_request_failed r)).

(** ** gemini_interaction.py *)

(** The [if]/[elif]/[else] on [function_name] in the body of the loop
    of [respond_to_prompt]: it leaves the dict that is sent back to the
    agent in [function_response_content]. *)
Definition dispatch (function_name : string) (args : gmap string pyval)
  : M (gmap string pyval) :=
  if String.eqb function_name "get_template" then
    let session_id := default PNone (args !! "session_id") in
    let template_type := default (PStr "handoff") (args !! "template_type") in
    try_except
      (api_response_data <- get_template session_id template_type ;;
       ret {[ "result" := api_response_data ]})
      (fun e =>
         match e with
         | TemplateNotFoundError _ =>
             ret {[ "error" := PStr (str_exn e);
                    "type" := PStr "TemplateNotFound" ]}
         | TemplateAuthenticationError _ =>
             ret {[ "error" := PStr (str_exn e);
                    "type" := PStr "AuthenticationError" ]}
         | TemplateAPIError _ =>
             ret {[ "error" := PStr (str_exn e);
                    "type" := PStr "APIFailure" ]}
         | PyException _ =>
             ret {[ "error" := PStr ("Unexpected error calling get_template: "
                                       +:+ str_exn e);
                    "type" := PStr "ClientExecutionError" ]}
         end)
  else if String.eqb function_name "create_template" then
    let session_id := default PNone (args !! "session_id") in
    let template_type := default PNone (args !! "template_type") in
    let content := default PNone (args !! "content") in
    let status := default (PStr "draft") (args !! "status") in
    let metadata := default PNone (args !! "metadata") in
    try_except
      (api_response_data <- create_template session_id template_type content
                                            status metadata ;;
       ret {[ "result" := api_response_data ]})
      (fun e =>
         match e with
         | TemplateAuthenticationError _ =>
             ret {[ "error" := PStr (str_exn e);
                    "type" := PStr "AuthenticationError" ]}
         | TemplateAPIError _ | TemplateNotFoundError _ =>
             ret {[ "error" := PStr (str_exn e);
                    "type" := PStr "APIFailure" ]}
         | PyException _ =>
             ret {[ "error" := PStr ("Unexpected error calling create_template: "
                                       +:+ str_exn e);
                    "type" := PStr "ClientExecutionError" ]}
         end)
  else
    print ("Error: Model requested unknown function: " +:+ function_name) ;;;
    ret {[ "error" := PStr ("Function " +:+ function_name
                              +:+ " is not implemented or recognized.") ]}.

(** [response.candidates[0].content.parts], which raises [IndexError]
    on a reply without candidates.  [response.parts] is the library's
    accessor for the same list. *)
Definition response_parts (r : response) : M (list part) :=
  match candidates r with
  | parts :: _ => ret parts
  | [] => raise (PyException "list index out of range")
  end.

(** The condition of the [while] loop, once [parts] is known. *)
Definition requests_function_call (parts : list part) : bool :=
  match parts with
  | [] => false
  | part0 :: _ => truthy (function_call_name part0)
  end.

(** One pass through the body of the loop: the call named by
    [parts[0]] is dispatched and its result sent back to the agent. *)
Definition handle_function_call (part0 : part) : M response :=
  let function_name := function_call_name part0 in
  let args := function_call_args part0 in
  print ("Gemini requested to call function: " +:+ function_name
           +:+ " with args: " +:+ py_repr (PDict (map_to_list args))) ;;;
  function_response_content <- dispatch function_name args ;;
  send_message (FunctionResponse function_name function_response_content).

(** The [while] loop.  [fuel] bounds the number of passes through its
    body; the source has no such bound. *)
Fixpoint tool_loop (fuel : nat) (r : response) : M response :=
  parts <- response_parts r ;;
  match parts with
  | part0 :: _ =>
      if requests_function_call parts then
        match fuel with
        | O => diverge
        | S fuel' => r' <- handle_function_call part0 ;; tool_loop fuel' r'
        end
      else ret r
  | [] => ret r
  end.

Definition no_final_text : string :=
  "Model did not provide a final text response after handling potential function calls.".

(** The code after the loop. *)
Definition final_text (r : response) : M string :=
  parts <- response_parts r ;;
  match parts with
  | _ :: _ => ret (join (map part_text parts))
  | [] =>
      match response_text r with
      | AttrAbsent => ret no_final_text
      | AttrRaises msg => raise (PyException msg)
      | AttrValue t => if truthy t then ret t else ret no_final_text
      end
  end.

Definition respond_to_prompt (fuel : nat) (user_prompt : string) : M string :=
  try_except
    (r <- send_message (UserPrompt user_prompt) ;;
     r' <- tool_loop fuel r ;;
     final_text r')
    (fun e =>
       print ("Error in respond_to_prompt: " +:+ str_exn e) ;;;
       raise e).

(** ** main.py *)

(** What [input] finds on standard input: a line, or an interrupt from
    the keyboard.  The end of the list is the end of the input. *)
Inductive input_event : Type :=
  | InputLine (line : string)
  | InputInterrupt.

Definition is_quit (user_input : string) : bool :=
  String.eqb (lower user_input) "quit" || String.eqb (lower user_input) "exit".

(** The [try] block of one iteration, from the call of
    [respond_to_prompt] on, with its [except Exception] handler. *)
Definition interact (fuel : nat) (user_input : string) : M unit :=
  try_except
    (print (newline +:+ "CKA is thinking...") ;;;
     response_text <- respond_to_prompt fuel user_input ;;
     print (newline +:+ "CKA Response:") ;;;
     print (repeat_string "-" 15) ;;;
     print response_text ;;;
     print (repeat_string "-" 15) ;;;
     print newline)
    (fun e =>
       print (newline +:+ "An unexpected error occurred during interaction: "
                +:+ str_exn e) ;;;
       print ("Please try again or type 'quit' to exit." +:+ newline)).

(** The [while True] loop of [main]; each iteration reads one input. *)
Fixpoint main_loop (fuel : nat) (inputs : list input_event) : M unit :=
  print "CKA Prompt: " ;;;
  match inputs with
  | [] => print (newline +:+ "Exiting CK Assistant. Goodbye!")
  | InputInterrupt :: _ =>
      print (newline +:+ "CK Assistant interrupted. Exiting. Goodbye!")
  | InputLine line :: rest =>
      let user_input := strip line in
      if negb (truthy user_input) then main_loop fuel rest
      else if is_quit user_input then print "Exiting CK Assistant. Goodbye!"
      else interact fuel user_input ;;; main_loop fuel rest
  end.

Definition main (fuel : nat) (inputs : list input_event) : M unit :=
  print "Welcome to CK Assistant (Alpha v0.1)" ;;;
  print "Powered by Google Gemini" ;;;
  print "Type 'quit' or 'exit' to leave." ;;;
  print (repeat_string "-" 30) ;;;
  if negb (truthy GEMINI_API_KEY) then
    print "FATAL CONFIGURATION ERROR: GEMINI_API_KEY is not set in the environment or .env file." ;;;
    print "Please ensure your .env file is correctly set up in ck_assistant_py/.env"
  else
    print "Configuration loaded successfully." ;;;
    main_loop fuel inputs.

(** ** States and traces named in the statements below *)

(** The state after one network call. *)
Definition after_http (req : http_request) (st : state) : state :=
  {| world := snd (http_send req (world st));
     trace := trace st ++ [HttpCall req (fst (http_send req (world st)))];
     stdout := stdout st |}.

(** The state in which the body of the loop calls [dispatch]: the
    request has been printed. *)
Definition announced (function_name : string) (args : gmap string pyval)
    (st : state) : state :=
  {| world := world st; trace := trace st;
     stdout := stdout st
                 ++ ["Gemini requested to call function: " +:+ function_name
                       +:+ " with args: "
                       +:+ py_repr (PDict (map_to_list args))] |}.

(** The state after some lines have been printed. *)
Definition printed (lines : list string) (st : state) : state :=
  {| world := world st; trace := trace st; stdout := stdout st ++ lines |}.

(** A stretch of the trace in which no exchange with the agent fails. *)
Definition no_agent_failure (tr : list event) : Prop :=
  Forall (fun ev => agent_failed ev = false) tr.

(** What a computation adds to the trace: either no failed exchange with
    the agent, or one, which comes last and is what the computation
    raises. *)
Definition stops_at_agent_failure {A} (res : outcome A) (delta : list event)
  : Prop :=
  no_agent_failure delta
  \/ exists pre msg m,
       delta = pre ++ [AgentCall msg (AgentFails m)]
       /\ no_agent_failure pre
       /\ res = Raises (PyException m).

Definition fatal_on_agent_failure {A} (c : M A) : Prop :=
  forall st, exists delta,
    trace (snd (c st)) = trace st ++ delta
    /\ stops_at_agent_failure (fst (c st)) delta.

(** ** Traces, as the further properties describe them *)

(** The program runs with the values that [config_loader] has loaded. *)
Definition configured_by (c : config) : Prop :=
  GEMINI_API_KEY = config_GEMINI_API_KEY c
  /\ TEMPLATE_EXCHANGE_API_KEY = config_TEMPLATE_EXCHANGE_API_KEY c
  /\ TEMPLATE_EXCHANGE_API_BASE_URL = config_TEMPLATE_EXCHANGE_API_BASE_URL c.

(** A computation leaves the trace as it is. *)
Definition silent {A} (c : M A) : Prop :=
  forall st, trace (snd (c st)) = trace st.

(** A computation extends the trace by a stretch that satisfies [G]. *)
Definition extends_trace (G : list event -> Prop) {A} (c : M A) : Prop :=
  forall st, exists delta,
    trace (snd (c st)) = trace st ++ delta /\ G delta.

(** A set of stretches with the empty one, closed under sequence. *)
Definition sequential (G : list event -> Prop) : Prop :=
  G [] /\ forall d1 d2, G d1 -> G d2 -> G (d1 ++ d2).

(** A request to the template service: it carries the configured key
    and addresses the templates of the configured base URL. *)
Definition well_addressed (req : http_request) : Prop :=
  match req with
  | HttpGet url headers _ | HttpPost url headers _ =>
      headers !! "x-api-key" = Some TEMPLATE_EXCHANGE_API_KEY
      /\ exists path,
           url = TEMPLATE_EXCHANGE_API_BASE_URL +:+ "/api/templates" +:+ path
  end.

Definition well_addressed_event (ev : event) : Prop :=
  match ev with
  | HttpCall req _ => well_addressed req
  | AgentCall _ _ => True
  end.

(** The exchanges of the passes through the loop, one pass after the
    other: a pass for one of the two tools is one request to the
    template service, a [GET] for [get_template] and a [POST] for
    [create_template], and then the function response under that name;
    a pass for any other name is the function response alone. *)
Inductive tool_rounds : list event -> Prop :=
  | rounds_done : tool_rounds []
  | rounds_get url headers params res content reply rest :
      tool_rounds rest ->
      tool_rounds (HttpCall (HttpGet url headers params) res
                     :: AgentCall (FunctionResponse "get_template" content)
                                  reply
                     :: rest)
  | rounds_create url headers body res content reply rest :
      tool_rounds rest ->
      tool_rounds (HttpCall (HttpPost url headers body) res
                     :: AgentCall (FunctionResponse "create_template" content)
                                  reply
                     :: rest)
  | rounds_unknown name content reply rest :
      name <> "get_template" -> name <> "create_template" ->
      tool_rounds rest ->
      tool_rounds (AgentCall (FunctionResponse name content) reply :: rest).

(** What [main] prints first. *)
Definition banner : list string :=
  ["Welcome to CK Assistant (Alpha v0.1)"; "Powered by Google Gemini";
   "Type 'quit' or 'exit' to leave."; repeat_string "-" 30].



End Program.

(** ** Scripted environments

    A world in which both remote parties answer from a script: each
    call consumes the next scripted answer, and fails once the script is
    exhausted. *)
Module Scripted.

Record script : Type := Script {
  agent_script : list agent_outcome;
  http_script : list http_outcome
}.

Definition scripted_http (_ : http_request) (w : script)
  : http_outcome * script :=
  match http_script w with
  | res :: rest => (res, {| agent_script := agent_script w;
                            http_script := rest |})
  | [] => (HttpFails "connection refused", w)
  end.

Definition scripted_agent (_ : message) (w : script)
  : agent_outcome * script :=
  match agent_script w with
  | res :: rest => (res, {| agent_script := rest;
                            http_script := http_script w |})
  | [] => (AgentFails "agent unavailable", w)
  end.

Definition scripted_env : Environment := {|
  World := script;
  http_send := scripted_http;
  agent_send := scripted_agent;
  TEMPLATE_EXCHANGE_API_KEY := "secret";
  TEMPLATE_EXCHANGE_API_BASE_URL := "https://templates.example";
  GEMINI_API_KEY := "gemini-key";
  py_repr := fun _ => "<value>"
|}.

(** The same world, run without a key for the agent. *)
Definition unconfigured_env : Environment := {|
  World := script;
  http_send := scripted_http;
  agent_send := scripted_agent;
  TEMPLATE_EXCHANGE_API_KEY := "secret";
  TEMPLATE_EXCHANGE_API_BASE_URL := "https://templates.example";
  GEMINI_API_KEY := "";
  py_repr := fun _ => "<value>"
|}.

Definition start (agent : list agent_outcome) (http : list http_outcome)
  : @state scripted_env :=
  @State scripted_env {| agent_script := agent; http_script := http |} [] [].

Definition turn (parts : list part) : agent_outcome :=
  AgentReplies {| candidates := [parts]; response_text := AttrAbsent |}.

Definition http_reply (status : Z) (body : string) (decoded : json_result)
  : http_outcome :=
  HttpReplies {| status_code := status; text := body; json := decoded |}.

End Scripted.

(** The requests and answers of the runs below. *)
Definition fetch_call : part :=
  FunctionCallPart "get_template" {[ "session_id" := PStr "M5.S4" ]}.

Definition stored_template : pyval :=
  PDict [("sessionId", PStr "M5.S4"); ("type", PStr "handoff");
         ("content", PStr "# Handoff"); ("status", PStr "draft")].

Definition found : http_outcome :=
  Scripted.http_reply 200 "{...}" (JsonValue stored_template).

Definition not_found : http_outcome :=
  Scripted.http_reply 404 "missing" (JsonError "Expecting value").

Definition created : http_outcome :=
  Scripted.http_reply 201 "{...}" (JsonValue stored_template).

(** * Properties *)

Section Properties.

Context `{env : Environment}.

(** ** The remote resource client *)

Lemma requests_run (req : http_request) (st : state) :
  requests req st =
  (match fst (http_send req (world st)) with
   | HttpReplies r => Returns r
   | HttpFails msg => Raises (PyException msg)
   end, after_http req st).
Proof.
  unfold requests, after_http.
  destruct (http_send req (world st)) as [[r | msg] w]; reflexivity.
Qed.

Lemma response_json_run (r : http_response) (st : state) :
  response_json r st =
  (match json r with
   | JsonValue v => Returns v
   | JsonError msg => Raises (PyException msg)
   end, st).
Proof. unfold response_json. destruct (json r); reflexivity. Qed.

(** [get_template] makes its one network call and nothing else. *)
Lemma get_template_state (session_id template_type : pyval) (st : state) :
  snd (get_template session_id template_type st) =
  after_http (get_template_request session_id template_type) st.
Proof.
  unfold get_template, bind. rewrite requests_run.
  destruct (fst (http_send _ _)) as [r | msg]; [| reflexivity].
  destruct (status_code r =? 200)%Z.
  - rewrite response_json_run. reflexivity.
  - destruct (status_code r =? 404)%Z; [reflexivity |].
    destruct (status_code r =? 401)%Z; reflexivity.
Qed.

Lemma get_template_result (session_id template_type : pyval) (st : state) :
  fst (get_template session_id template_type st) =
  match fst (http_send (get_template_request session_id template_type)
                       (world st)) with
  | HttpFails msg => Raises (PyException msg)
  | HttpReplies r =>
      if (status_code r =? 200)%Z then
        match json r with
        | JsonValue v => Returns v
        | JsonError msg => Raises (PyException msg)
        end
      else if (status_code r =? 404)%Z then
        Raises (TemplateNotFoundError
                  ("No " +:+ py_str template_type
                     +:+ " template found for session " +:+ py_str session_id))
      else if (status_code r =? 401)%Z then
        Raises (TemplateAuthenticationError
                  "Authentication failed. Check API key.")
      else Raises (TemplateAPIError (api_request_failed r))
  end.
Proof.
  unfold get_template, bind. rewrite requests_run.
  destruct (fst (http_send _ _)) as [r | msg]; [| reflexivity].
  destruct (status_code r =? 200)%Z.
  - rewrite response_json_run. reflexivity.
  - destruct (status_code r =? 404)%Z; [reflexivity |].
    destruct (status_code r =? 401)%Z; reflexivity.
Qed.

Lemma create_template_state
    (session_id template_type content status metadata : pyval) (st : state) :
  snd (create_template session_id template_type content status metadata st) =
  after_http (create_template_request session_id template_type content
                                      status metadata) st.
Proof.
  unfold create_template, bind. rewrite requests_run.
  destruct (fst (http_send _ _)) as [r | msg]; [| reflexivity].
  destruct (status_code r =? 201)%Z.
  - rewrite response_json_run. reflexivity.
  - destruct (status_code r =? 401)%Z; reflexivity.
Qed.

Lemma create_template_result
    (session_id template_type content status metadata : pyval) (st : state) :
  fst (create_template session_id template_type content status metadata st) =
  match fst (http_send (create_template_request session_id template_type
                          content status metadata) (world st)) with
  | HttpFails msg => Raises (PyException msg)
  | HttpReplies r =>
      if (status_code r =? 201)%Z then
        match json r with
        | JsonValue v => Returns v
        | JsonError msg => Raises (PyException msg)
        end
      else if (status_code r =? 401)%Z then
        Raises (TemplateAuthenticationError
                  "Authentication failed. Check API key.")
      else Raises (TemplateAPIError (api_request_failed r))
  end.
Proof.
  unfold create_template, bind. rewrite requests_run.
  destruct (fst (http_send _ _)) as [r | msg]; [| reflexivity].
  destruct (status_code r =? 201)%Z.
  - rewrite response_json_run. reflexivity.
  - destruct (status_code r =? 401)%Z; reflexivity.
Qed.

(** C4.  Whatever the session id and the template type, when the
    service answers the one request of [get_template] with a response
    of status [s]: the decoded body is returned when [s] is 200; the
    call fails with [TemplateNotFoundError] exactly when [s] is 404 and
    with [TemplateAuthenticationError] exactly when [s] is 401; on every
    other status (every status outside 2xx among them) it fails with
    [TemplateAPIError], whose message carries the status and the raw
    body.  The trace grows by that one request: a single attempt. *)
Theorem get_template_status_mapping
    (session_id template_type : pyval) (st : state) (r : http_response) :
  fst (http_send (get_template_request session_id template_type) (world st))
    = HttpReplies r ->
  let run := get_template session_id template_type st in
  trace (snd run) =
    trace st ++ [HttpCall (get_template_request session_id template_type)
                          (HttpReplies r)]
  /\ (status_code r = 200 ->
      forall v, json r = JsonValue v -> fst run = Returns v)
  /\ ((exists msg, fst run = Raises (TemplateNotFoundError msg))
      <-> status_code r = 404)
  /\ ((exists msg, fst run = Raises (TemplateAuthenticationError msg))
      <-> status_code r = 401)
  /\ (status_code r <> 200 -> status_code r <> 404 -> status_code r <> 401 ->
      fst run = Raises (TemplateAPIError
                          ("API request failed with status "
                             +:+ str_of_int (status_code r)
                             +:+ ": " +:+ text r))).
Proof.
  intros Hsend run. subst run.
  rewrite get_template_state, get_template_result, Hsend.
  split; [unfold after_http; simpl; rewrite Hsend; reflexivity |].
  destruct (Z.eqb_spec (status_code r) 200) as [E200 | N200];
    [| destruct (Z.eqb_spec (status_code r) 404) as [E404 | N404];
       [| destruct (Z.eqb_spec (status_code r) 401) as [E401 | N401]]];
    repeat split;
    try (intros; lia);
    try (intros [msg Hm]; destruct (json r); discriminate);
    try (intros; eexists; reflexivity);
    try (intros; reflexivity).
  intros _ v Hv. rewrite Hv. reflexivity.
Qed.

(** C5.  Whatever its arguments, when the service answers the one
    request of [create_template] with a response of status [s]: the
    decoded body is returned when [s] is 201; the call fails with
    [TemplateAuthenticationError] exactly when [s] is 401; on every
    other status it fails with [TemplateAPIError], whose message carries
    the status and the body. *)
Theorem create_template_status_mapping
    (session_id template_type content status metadata : pyval)
    (st : state) (r : http_response) :
  fst (http_send (create_template_request session_id template_type content
                    status metadata) (world st)) = HttpReplies r ->
  let run := create_template session_id template_type content status
                             metadata st in
  (status_code r = 201 ->
   forall v, json r = JsonValue v -> fst run = Returns v)
  /\ ((exists msg, fst run = Raises (TemplateAuthenticationError msg))
      <-> status_code r = 401)
  /\ (status_code r <> 201 -> status_code r <> 401 ->
      fst run = Raises (TemplateAPIError
                          ("API request failed with status "
                             +:+ str_of_int (status_code r)
                             +:+ ": " +:+ text r))).
Proof.
  intros Hsend run. subst run.
  rewrite create_template_result, Hsend.
  destruct (Z.eqb_spec (status_code r) 201) as [E201 | N201];
    [| destruct (Z.eqb_spec (status_code r) 401) as [E401 | N401]];
    repeat split;
    try (intros; lia);
    try (intros [msg Hm]; destruct (json r); discriminate);
    try (intros; eexists; reflexivity);
    try (intros; reflexivity).
  intros _ v Hv. rewrite Hv. reflexivity.
Qed.

(** C6.  The body that [create_template] posts: without metadata
    ([None]) it has no [metadata] key and its keys are exactly
    [sessionId], [type], [content] and [status]; with metadata, the
    value is stored unchanged under [metadata] next to those four.  The
    four fields hold the arguments as given. *)
Theorem create_template_body
    (session_id template_type content status metadata : pyval) (st : state) :
  let body := create_template_payload session_id template_type content
                                      status metadata in
  http_requests
    (trace (snd (create_template session_id template_type content status
                                 metadata st))) =
    http_requests (trace st)
      ++ [HttpPost (TEMPLATE_EXCHANGE_API_BASE_URL +:+ "/api/templates")
                   {[ "x-api-key" := TEMPLATE_EXCHANGE_API_KEY;
                      "Content-Type" := "application/json" ]}
                   body]
  /\ (metadata = PNone ->
      body !! "metadata" = None
      /\ dom body = {[ "sessionId"; "type"; "content"; "status" ]})
  /\ (metadata <> PNone ->
      body !! "metadata" = Some metadata
      /\ dom body = {[ "sessionId"; "type"; "content"; "status";
                       "metadata" ]})
  /\ body !! "sessionId" = Some session_id
  /\ body !! "type" = Some template_type
  /\ body !! "content" = Some content
  /\ body !! "status" = Some status.
Proof.
  intros body. subst body. split.
  { rewrite create_template_state. unfold after_http; simpl.
    unfold http_requests. rewrite omap_app. reflexivity. }
  unfold create_template_payload.
  split; [intros ->; split; [reflexivity | by vm_compute] |].
  split.
  { intros Hmd. destruct metadata; try contradiction;
      (split; [reflexivity | by vm_compute]). }
  destruct metadata; repeat split; reflexivity.
Qed.

(** ** Dispatch *)

Lemma http_requests_app (tr1 tr2 : list event) :
  http_requests (tr1 ++ tr2) = http_requests tr1 ++ http_requests tr2.
Proof. unfold http_requests. apply omap_app. Qed.

Lemma http_requests_after (req : http_request) (st : state) :
  http_requests (trace (after_http req st)) =
  http_requests (trace st) ++ [req].
Proof. unfold after_http; simpl. rewrite http_requests_app. reflexivity. Qed.

(** The client calls return or raise; they never diverge. *)
Lemma get_template_terminates (session_id template_type : pyval) (st : state) :
  fst (get_template session_id template_type st) <> Diverges.
Proof.
  rewrite get_template_result.
  destruct (fst (http_send _ _)) as [r | msg]; [| discriminate].
  destruct (status_code r =? 200)%Z; [destruct (json r); discriminate |].
  destruct (status_code r =? 404)%Z; [discriminate |].
  destruct (status_code r =? 401)%Z; discriminate.
Qed.

Lemma create_template_terminates
    (session_id template_type content status metadata : pyval) (st : state) :
  fst (create_template session_id template_type content status metadata st)
    <> Diverges.
Proof.
  rewrite create_template_result.
  destruct (fst (http_send _ _)) as [r | msg]; [| discriminate].
  destruct (status_code r =? 201)%Z; [destruct (json r); discriminate |].
  destruct (status_code r =? 401)%Z; discriminate.
Qed.

(** [create_template] has no branch that raises [TemplateNotFoundError]. *)
Lemma create_template_never_not_found
    (session_id template_type content status metadata : pyval) (st : state)
    (msg : string) :
  fst (create_template session_id template_type content status metadata st)
    <> Raises (TemplateNotFoundError msg).
Proof.
  rewrite create_template_result.
  destruct (fst (http_send _ _)) as [r | m]; [| discriminate].
  destruct (status_code r =? 201)%Z; [destruct (json r); discriminate |].
  destruct (status_code r =? 401)%Z; discriminate.
Qed.

(** The [get_template] branch, read off the outcome of the client. *)
Lemma dispatch_get_template (args : gmap string pyval) (st : state) :
  let run := get_template (default PNone (args !! "session_id"))
                          (default (PStr "handoff") (args !! "template_type"))
                          st in
  dispatch "get_template" args st =
  (match fst run with
   | Returns payload => Returns {[ "result" := payload ]}
   | Raises (TemplateNotFoundError msg) =>
       Returns {[ "error" := PStr msg; "type" := PStr "TemplateNotFound" ]}
   | Raises (TemplateAuthenticationError msg) =>
       Returns {[ "error" := PStr msg; "type" := PStr "AuthenticationError" ]}
   | Raises (TemplateAPIError msg) =>
       Returns {[ "error" := PStr msg; "type" := PStr "APIFailure" ]}
   | Raises (PyException msg) =>
       Returns {[ "error" := PStr ("Unexpected error calling get_template: "
                                     +:+ msg);
                  "type" := PStr "ClientExecutionError" ]}
   | Diverges => Diverges
   end, snd run).
Proof.
  intros run. subst run. unfold dispatch; simpl. unfold try_except, bind.
  destruct (get_template _ _ st) as [[payload | e |] st']; simpl;
    [reflexivity | destruct e; reflexivity | reflexivity].
Qed.

(** The [create_template] branch, read off the outcome of the client. *)
Lemma dispatch_create_template (args : gmap string pyval) (st : state) :
  let run := create_template (default PNone (args !! "session_id"))
                             (default PNone (args !! "template_type"))
                             (default PNone (args !! "content"))
                             (default (PStr "draft") (args !! "status"))
                             (default PNone (args !! "metadata"))
                             st in
  dispatch "create_template" args st =
  (match fst run with
   | Returns payload => Returns {[ "result" := payload ]}
   | Raises (TemplateAuthenticationError msg) =>
       Returns {[ "error" := PStr msg; "type" := PStr "AuthenticationError" ]}
   | Raises (TemplateAPIError msg) | Raises (TemplateNotFoundError msg) =>
       Returns {[ "error" := PStr msg; "type" := PStr "APIFailure" ]}
   | Raises (PyException msg) =>
       Returns {[ "error" := PStr ("Unexpected error calling create_template: "
                                     +:+ msg);
                  "type" := PStr "ClientExecutionError" ]}
   | Diverges => Diverges
   end, snd run).
Proof.
  intros run. subst run. unfold dispatch; simpl. unfold try_except, bind.
  destruct (create_template _ _ _ _ _ st) as [[payload | e |] st']; simpl;
    [reflexivity | destruct e; reflexivity | reflexivity].
Qed.

(** The [else] branch: a name that is neither of the two tools. *)
Lemma dispatch_unknown (function_name : string) (args : gmap string pyval)
    (st : state) :
  function_name <> "get_template" ->
  function_name <> "create_template" ->
  dispatch function_name args st =
  (Returns {[ "error" := PStr ("Function " +:+ function_name
                                 +:+ " is not implemented or recognized.") ]},
   {| world := world st; trace := trace st;
      stdout := stdout st
                  ++ ["Error: Model requested unknown function: "
                        +:+ function_name] |}).
Proof.
  intros Hget Hcreate. unfold dispatch.
  destruct (String.eqb_spec function_name "get_template"); [contradiction |].
  destruct (String.eqb_spec function_name "create_template");
    [contradiction |].
  reflexivity.
Qed.

(** Dispatch returns a dict for every name and every argument dict. *)
Lemma dispatch_returns (function_name : string) (args : gmap string pyval)
    (st : state) :
  exists content, fst (dispatch function_name args st) = Returns content.
Proof.
  destruct (String.eqb_spec function_name "get_template") as [-> | Hget].
  { rewrite dispatch_get_template; simpl.
    pose proof (get_template_terminates
                  (default PNone (args !! "session_id"))
                  (default (PStr "handoff") (args !! "template_type")) st).
    destruct (fst (get_template _ _ st)) as [payload | [] |];
      eauto; contradiction. }
  destruct (String.eqb_spec function_name "create_template") as [-> | Hcreate].
  { rewrite dispatch_create_template; simpl.
    pose proof (create_template_terminates
                  (default PNone (args !! "session_id"))
                  (default PNone (args !! "template_type"))
                  (default PNone (args !! "content"))
                  (default (PStr "draft") (args !! "status"))
                  (default PNone (args !! "metadata")) st).
    destruct (fst (create_template _ _ _ _ _ st)) as [payload | [] |];
      eauto; contradiction. }
  rewrite dispatch_unknown by assumption. eauto.
Qed.

(** A pass through the body of the loop always reaches its
    [send_message]: what [dispatch] returned goes back to the agent. *)
Lemma handle_function_call_sends (function_name : string)
    (args : gmap string pyval) (st : state) :
  exists content,
    fst (dispatch function_name args (announced function_name args st))
      = Returns content
    /\ handle_function_call (FunctionCallPart function_name args) st =
       send_message (FunctionResponse function_name content)
         (snd (dispatch function_name args (announced function_name args st))).
Proof.
  destruct (dispatch_returns function_name args
              (announced function_name args st)) as [content Hc].
  exists content. split; [exact Hc |].
  unfold handle_function_call, bind, print; simpl.
  fold (announced function_name args st).
  destruct (dispatch function_name args (announced function_name args st))
    as [res st']; simpl in *. subst res. reflexivity.
Qed.

(** C2.  Dispatch of [get_template] and of [create_template] always
    returns a dict, never raises: the client's result [payload] becomes
    [{"result": payload}]; each client exception becomes
    [{"error": message, "type": tag}], with one tag per class
    ([TemplateNotFound], [AuthenticationError], [APIFailure]); every
    other exception becomes a [ClientExecutionError] entry.  The body of
    the loop then sends that dict to the agent: the interaction goes
    on. *)
Theorem dispatch_yields_tool_result (args : gmap string pyval) (st : state) :
  (let run := get_template (default PNone (args !! "session_id"))
                (default (PStr "handoff") (args !! "template_type")) st in
   snd (dispatch "get_template" args st) = snd run
   /\ match fst run with
      | Returns payload =>
          fst (dispatch "get_template" args st)
            = Returns {[ "result" := payload ]}
      | Raises (TemplateNotFoundError msg) =>
          fst (dispatch "get_template" args st)
            = Returns {[ "error" := PStr msg;
                         "type" := PStr "TemplateNotFound" ]}
      | Raises (TemplateAuthenticationError msg) =>
          fst (dispatch "get_template" args st)
            = Returns {[ "error" := PStr msg;
                         "type" := PStr "AuthenticationError" ]}
      | Raises (TemplateAPIError msg) =>
          fst (dispatch "get_template" args st)
            = Returns {[ "error" := PStr msg; "type" := PStr "APIFailure" ]}
      | Raises (PyException msg) =>
          fst (dispatch "get_template" args st)
            = Returns {[ "error" :=
                           PStr ("Unexpected error calling get_template: "
                                   +:+ msg);
                         "type" := PStr "ClientExecutionError" ]}
      | Diverges => False
      end)
  /\ (let run := create_template (default PNone (args !! "session_id"))
                   (default PNone (args !! "template_type"))
                   (default PNone (args !! "content"))
                   (default (PStr "draft") (args !! "status"))
                   (default PNone (args !! "metadata")) st in
      snd (dispatch "create_template" args st) = snd run
      /\ match fst run with
         | Returns payload =>
             fst (dispatch "create_template" args st)
               = Returns {[ "result" := payload ]}
         | Raises (TemplateAuthenticationError msg) =>
             fst (dispatch "create_template" args st)
               = Returns {[ "error" := PStr msg;
                            "type" := PStr "AuthenticationError" ]}
         | Raises (TemplateAPIError msg) =>
             fst (dispatch "create_template" args st)
               = Returns {[ "error" := PStr msg;
                            "type" := PStr "APIFailure" ]}
         | Raises (PyException msg) =>
             fst (dispatch "create_template" args st)
               = Returns {[ "error" :=
                              PStr ("Unexpected error calling create_template: "
                                      +:+ msg);
                            "type" := PStr "ClientExecutionError" ]}
         | Raises (TemplateNotFoundError _) => False
         | Diverges => False
         end)
  /\ (forall function_name,
        exists content,
          fst (dispatch function_name args
                 (announced function_name args st)) = Returns content
          /\ handle_function_call (FunctionCallPart function_name args) st =
             send_message (FunctionResponse function_name content)
               (snd (dispatch function_name args
                       (announced function_name args st)))).
Proof.
  split; [| split].
  - intros run. subst run. rewrite dispatch_get_template; simpl.
    split; [reflexivity |].
    pose proof (get_template_terminates
                  (default PNone (args !! "session_id"))
                  (default (PStr "handoff") (args !! "template_type")) st).
    destruct (fst (get_template _ _ st)) as [payload | [] |];
      try reflexivity; contradiction.
  - intros run. subst run. rewrite dispatch_create_template; simpl.
    split; [reflexivity |].
    pose proof (create_template_terminates
                  (default PNone (args !! "session_id"))
                  (default PNone (args !! "template_type"))
                  (default PNone (args !! "content"))
                  (default (PStr "draft") (args !! "status"))
                  (default PNone (args !! "metadata")) st) as Hterm.
    pose proof (create_template_never_not_found
                  (default PNone (args !! "session_id"))
                  (default PNone (args !! "template_type"))
                  (default PNone (args !! "content"))
                  (default (PStr "draft") (args !! "status"))
                  (default PNone (args !! "metadata")) st) as Hnf.
    destruct (fst (create_template _ _ _ _ _ st)) as [payload | [] |];
      try reflexivity; try contradiction.
    exact (Hnf msg eq_refl).
  - intros function_name. apply handle_function_call_sends.
Qed.

Lemma dispatch_get_template_state (args : gmap string pyval) (st : state) :
  snd (dispatch "get_template" args st) =
  after_http (get_template_request
                (default PNone (args !! "session_id"))
                (default (PStr "handoff") (args !! "template_type"))) st.
Proof.
  rewrite dispatch_get_template; simpl. apply get_template_state.
Qed.

Lemma dispatch_create_template_state (args : gmap string pyval) (st : state) :
  snd (dispatch "create_template" args st) =
  after_http (create_template_request
                (default PNone (args !! "session_id"))
                (default PNone (args !! "template_type"))
                (default PNone (args !! "content"))
                (default (PStr "draft") (args !! "status"))
                (default PNone (args !! "metadata"))) st.
Proof.
  rewrite dispatch_create_template; simpl. apply create_template_state.
Qed.

(** C8.  A [get_template] call without [template_type] reaches the
    client with [template_type = "handoff"], and behaves as the same
    call with ["handoff"] supplied; a [create_template] call without
    [status] reaches the client with [status = "draft"]; a value that
    the call supplies for either argument reaches the client
    unchanged. *)
Theorem dispatch_argument_defaults (args : gmap string pyval) (st : state) :
  let session_id := default PNone (args !! "session_id") in
  let template_type := default PNone (args !! "template_type") in
  let content := default PNone (args !! "content") in
  let metadata := default PNone (args !! "metadata") in
  (args !! "template_type" = None ->
   snd (dispatch "get_template" args st)
     = snd (get_template session_id (PStr "handoff") st)
   /\ http_requests (trace (snd (dispatch "get_template" args st)))
      = http_requests (trace st)
          ++ [get_template_request session_id (PStr "handoff")]
   /\ dispatch "get_template" args st
      = dispatch "get_template" (<[ "template_type" := PStr "handoff" ]> args)
                 st)
  /\ (forall v, args !! "template_type" = Some v ->
      snd (dispatch "get_template" args st)
        = snd (get_template session_id v st)
      /\ http_requests (trace (snd (dispatch "get_template" args st)))
         = http_requests (trace st) ++ [get_template_request session_id v])
  /\ (args !! "status" = None ->
      snd (dispatch "create_template" args st)
        = snd (create_template session_id template_type content
                               (PStr "draft") metadata st)
      /\ http_requests (trace (snd (dispatch "create_template" args st)))
         = http_requests (trace st)
             ++ [create_template_request session_id template_type content
                                         (PStr "draft") metadata])
  /\ (forall v, args !! "status" = Some v ->
      snd (dispatch "create_template" args st)
        = snd (create_template session_id template_type content v
                               metadata st)
      /\ http_requests (trace (snd (dispatch "create_template" args st)))
         = http_requests (trace st)
             ++ [create_template_request session_id template_type content
                                         v metadata]).
Proof.
  intros session_id template_type content metadata.
  subst session_id template_type content metadata.
  repeat split.
  - rewrite dispatch_get_template; simpl. rewrite H. reflexivity.
  - rewrite dispatch_get_template_state, http_requests_after, H. reflexivity.
  - rewrite !dispatch_get_template.
    rewrite lookup_insert_eq, lookup_insert_ne by discriminate.
    rewrite H. reflexivity.
  - rewrite dispatch_get_template; simpl. rewrite H. reflexivity.
  - rewrite dispatch_get_template_state, http_requests_after, H. reflexivity.
  - rewrite dispatch_create_template; simpl. rewrite H. reflexivity.
  - rewrite dispatch_create_template_state, http_requests_after, H.
    reflexivity.
  - rewrite dispatch_create_template; simpl. rewrite H. reflexivity.
  - rewrite dispatch_create_template_state, http_requests_after, H.
    reflexivity.
Qed.

(** C10.  Dispatch checks no argument.  A [get_template] call without
    [session_id] makes the network call all the same, for the session
    [None], and returns what the service answers; a [create_template]
    call posts its body whatever is missing, with [None] under
    [sessionId], [type] or [content] for a missing [session_id],
    [template_type] or [content]. *)
Theorem dispatch_forwards_missing_arguments
    (args : gmap string pyval) (st : state) :
  (args !! "session_id" = None ->
   let template_type := default (PStr "handoff") (args !! "template_type") in
   let req := HttpGet (TEMPLATE_EXCHANGE_API_BASE_URL
                         +:+ "/api/templates/" +:+ "None")
                      {[ "x-api-key" := TEMPLATE_EXCHANGE_API_KEY ]}
                      {[ "type" := template_type ]} in
   snd (dispatch "get_template" args st)
     = snd (get_template PNone template_type st)
   /\ http_requests (trace (snd (dispatch "get_template" args st)))
      = http_requests (trace st) ++ [req]
   /\ (forall r v,
         fst (http_send req (world st)) = HttpReplies r ->
         status_code r = 200 -> json r = JsonValue v ->
         fst (dispatch "get_template" args st)
           = Returns {[ "result" := v ]}))
  /\ (exists body,
        http_requests (trace (snd (dispatch "create_template" args st)))
          = http_requests (trace st)
              ++ [HttpPost (TEMPLATE_EXCHANGE_API_BASE_URL +:+ "/api/templates")
                           {[ "x-api-key" := TEMPLATE_EXCHANGE_API_KEY;
                              "Content-Type" := "application/json" ]}
                           body]
        /\ (args !! "session_id" = None -> body !! "sessionId" = Some PNone)
        /\ (args !! "template_type" = None -> body !! "type" = Some PNone)
        /\ (args !! "content" = None -> body !! "content" = Some PNone)).
Proof.
  split.
  - intros Hsid template_type req. subst template_type req.
    assert (Hreq : get_template_request PNone
                     (default (PStr "handoff") (args !! "template_type"))
                   = HttpGet (TEMPLATE_EXCHANGE_API_BASE_URL
                                +:+ "/api/templates/" +:+ "None")
                             {[ "x-api-key" := TEMPLATE_EXCHANGE_API_KEY ]}
                             {[ "type" := default (PStr "handoff")
                                            (args !! "template_type") ]})
      by reflexivity.
    rewrite <- Hreq. repeat split.
    + rewrite dispatch_get_template; simpl. rewrite Hsid. reflexivity.
    + rewrite dispatch_get_template_state, http_requests_after, Hsid.
      reflexivity.
    + intros r v Hsend H200 Hjson.
      rewrite dispatch_get_template; simpl. rewrite Hsid; simpl.
      rewrite get_template_result, Hsend, H200, Hjson. reflexivity.
  - eexists. split.
    + rewrite dispatch_create_template_state, http_requests_after.
      unfold create_template_request. reflexivity.
    + unfold create_template_payload.
      repeat split; intros ->; simpl;
        destruct (is_not_None _); reflexivity.
Qed.

(** ** The loop *)

(** The loop stops on a reply whose first part names no function. *)
Lemma tool_loop_stops (fuel : nat) (r : response) (parts : list part)
    (others : list (list part)) (st : state) :
  candidates r = parts :: others ->
  requests_function_call parts = false ->
  tool_loop fuel r st = (Returns r, st).
Proof.
  intros Hc Hno.
  destruct fuel; simpl; unfold bind, response_parts; rewrite Hc; simpl;
    destruct parts as [| part0 parts']; try reflexivity;
    rewrite Hno; reflexivity.
Qed.

(** The loop goes through its body on a reply whose first part names a
    function, and then looks at the agent's next reply. *)
Lemma tool_loop_continues (fuel : nat) (r : response) (part0 : part)
    (parts : list part) (others : list (list part)) (st : state) :
  candidates r = (part0 :: parts) :: others ->
  requests_function_call (part0 :: parts) = true ->
  tool_loop (S fuel) r st =
  bind (handle_function_call part0) (tool_loop fuel) st.
Proof.
  intros Hc Hcall. simpl. unfold bind at 1, response_parts.
  rewrite Hc; simpl. simpl in Hcall. rewrite Hcall. reflexivity.
Qed.

(** Only the first part of a reply decides. *)
Lemma requests_function_call_first (part0 : part) (parts : list part) :
  requests_function_call (part0 :: parts) = truthy (function_call_name part0).
Proof. reflexivity. Qed.

(** After the loop: a reply with parts yields the texts of its parts,
    joined, whatever they are. *)
Lemma final_text_of_parts (r : response) (part0 : part) (parts : list part)
    (others : list (list part)) (st : state) :
  candidates r = (part0 :: parts) :: others ->
  final_text r st = (Returns (join (map part_text (part0 :: parts))), st).
Proof.
  intros Hc. unfold final_text, bind, response_parts. rewrite Hc. reflexivity.
Qed.

(** After the loop: a reply without parts yields what [response.text]
    gives, and the fallback sentence when that is absent or empty. *)
Lemma final_text_without_parts (r : response) (others : list (list part))
    (st : state) :
  candidates r = [] :: others ->
  final_text r st =
  (match response_text r with
   | AttrAbsent => Returns no_final_text
   | AttrValue t => Returns (if truthy t then t else no_final_text)
   | AttrRaises msg => Raises (PyException msg)
   end, st).
Proof.
  intros Hc. unfold final_text, bind, response_parts. rewrite Hc; simpl.
  destruct (response_text r) as [| t | msg]; try reflexivity.
  destruct (truthy t); reflexivity.
Qed.

(** A first reply that starts with a text part ends the interaction,
    whatever follows the text in that reply. *)
Lemma text_first_turn_ends_interaction (fuel : nat) (user_prompt t : string)
    (r : response) (parts : list part) (others : list (list part))
    (st : state) :
  fst (agent_send (UserPrompt user_prompt) (world st)) = AgentReplies r ->
  candidates r = (TextPart t :: parts) :: others ->
  fst (respond_to_prompt fuel user_prompt st)
    = Returns (t +:+ join (map part_text parts))
  /\ trace (snd (respond_to_prompt fuel user_prompt st))
     = trace st ++ [AgentCall (UserPrompt user_prompt) (AgentReplies r)].
Proof.
  intros Hsend Hc.
  assert (Hfirst : send_message (UserPrompt user_prompt) st =
                   (Returns r,
                    {| world := snd (agent_send (UserPrompt user_prompt)
                                                (world st));
                       trace := trace st
                                  ++ [AgentCall (UserPrompt user_prompt)
                                                (AgentReplies r)];
                       stdout := stdout st |})).
  { unfold send_message.
    destruct (agent_send (UserPrompt user_prompt) (world st)) as [res w].
    simpl in Hsend. subst res. reflexivity. }
  unfold respond_to_prompt, try_except, bind. rewrite Hfirst.
  rewrite (tool_loop_stops fuel r _ _ _ Hc eq_refl).
  rewrite (final_text_of_parts r _ _ _ _ Hc). split; reflexivity.
Qed.

(** ** Failures of the agent *)

Lemma fatal_silent {A} (c : M A) :
  (forall st, trace (snd (c st)) = trace st) -> fatal_on_agent_failure c.
Proof.
  intros Hsilent st. exists []. rewrite Hsilent, app_nil_r.
  split; [reflexivity | left; constructor].
Qed.

Lemma fatal_ret {A} (a : A) : fatal_on_agent_failure (ret a).
Proof. apply fatal_silent. reflexivity. Qed.

Lemma fatal_raise {A} (e : exn) : fatal_on_agent_failure (@raise _ A e).
Proof. apply fatal_silent. reflexivity. Qed.

Lemma fatal_diverge {A} : fatal_on_agent_failure (@diverge _ A).
Proof. apply fatal_silent. reflexivity. Qed.

Lemma fatal_print (line : string) : fatal_on_agent_failure (print line).
Proof. apply fatal_silent. reflexivity. Qed.

Lemma fatal_send_message (msg : message) :
  fatal_on_agent_failure (send_message msg).
Proof.
  intros st. unfold send_message.
  destruct (agent_send msg (world st)) as [[r | m] w]; simpl.
  - exists [AgentCall msg (AgentReplies r)]. split; [reflexivity |].
    left. repeat constructor.
  - exists [AgentCall msg (AgentFails m)]. split; [reflexivity |].
    right. exists [], msg, m. repeat split. constructor.
Qed.

Lemma fatal_bind {A B} (m : M A) (k : A -> M B) :
  fatal_on_agent_failure m ->
  (forall a, fatal_on_agent_failure (k a)) ->
  fatal_on_agent_failure (bind m k).
Proof.
  intros Hm Hk st. destruct (Hm st) as (d1 & Ht1 & Hs1). unfold bind.
  destruct (m st) as [[a | e |] st1]; simpl in *.
  - destruct (Hk a st1) as (d2 & Ht2 & Hs2).
    exists (d1 ++ d2). rewrite Ht2, Ht1, app_assoc. split; [reflexivity |].
    destruct Hs1 as [Hclean1 | (pre & msg & mm & _ & _ & Hres)];
      [| discriminate].
    destruct Hs2 as [Hclean2 | (pre & msg & mm & -> & Hpre & Hres)].
    + left. apply Forall_app; split; assumption.
    + right. exists (d1 ++ pre), msg, mm. rewrite app_assoc.
      repeat split; [apply Forall_app; split; assumption | exact Hres].
  - exists d1. split; [exact Ht1 |].
    destruct Hs1 as [Hclean1 | (pre & msg & mm & -> & Hpre & Hres)].
    + left. exact Hclean1.
    + right. exists pre, msg, mm. repeat split; [exact Hpre |].
      injection Hres as ->. reflexivity.
  - exists d1. split; [exact Ht1 |].
    destruct Hs1 as [Hclean1 | (pre & msg & mm & _ & _ & Hres)];
      [left; exact Hclean1 | discriminate].
Qed.

(** Dispatch talks to the template service only. *)
Lemma fatal_dispatch (function_name : string) (args : gmap string pyval) :
  fatal_on_agent_failure (dispatch function_name args).
Proof.
  intros st.
  destruct (String.eqb_spec function_name "get_template") as [-> | Hget].
  { eexists. rewrite dispatch_get_template_state. unfold after_http; simpl.
    split; [reflexivity | left; repeat constructor]. }
  destruct (String.eqb_spec function_name "create_template") as [-> | Hcreate].
  { eexists. rewrite dispatch_create_template_state. unfold after_http; simpl.
    split; [reflexivity | left; repeat constructor]. }
  rewrite dispatch_unknown by assumption; simpl.
  exists []. rewrite app_nil_r. split; [reflexivity | left; constructor].
Qed.

Lemma fatal_handle_function_call (part0 : part) :
  fatal_on_agent_failure (handle_function_call part0).
Proof.
  unfold handle_function_call.
  apply fatal_bind; [apply fatal_print | intros _].
  apply fatal_bind; [apply fatal_dispatch | intros content].
  apply fatal_send_message.
Qed.

Lemma fatal_response_parts (r : response) :
  fatal_on_agent_failure (response_parts r).
Proof.
  unfold response_parts.
  destruct (candidates r); [apply fatal_raise | apply fatal_ret].
Qed.

Lemma fatal_tool_loop (fuel : nat) :
  forall r, fatal_on_agent_failure (tool_loop fuel r).
Proof.
  induction fuel as [| fuel IH]; intros r; simpl;
    (apply fatal_bind; [apply fatal_response_parts | intros parts]);
    destruct parts as [| part0 parts]; try apply fatal_ret;
    destruct (requests_function_call (part0 :: parts));
    try apply fatal_ret; try apply fatal_diverge.
  apply fatal_bind; [apply fatal_handle_function_call | exact IH].
Qed.

Lemma fatal_final_text (r : response) : fatal_on_agent_failure (final_text r).
Proof.
  unfold final_text.
  apply fatal_bind; [apply fatal_response_parts | intros parts].
  destruct parts; [| apply fatal_ret].
  destruct (response_text r) as [| t | msg];
    [apply fatal_ret | | apply fatal_raise].
  destruct (truthy t); apply fatal_ret.
Qed.

(** The handler of [respond_to_prompt] prints and raises again. *)
Lemma fatal_respond_to_prompt (fuel : nat) (user_prompt : string) :
  fatal_on_agent_failure (respond_to_prompt fuel user_prompt).
Proof.
  intros st. unfold respond_to_prompt, try_except.
  assert (Hbody : fatal_on_agent_failure
                    (bind (send_message (UserPrompt user_prompt))
                       (fun r => bind (tool_loop fuel r) final_text))).
  { apply fatal_bind; [apply fatal_send_message | intros r].
    apply fatal_bind; [apply fatal_tool_loop | apply fatal_final_text]. }
  destruct (Hbody st) as (delta & Ht & Hs). exists delta.
  destruct (bind _ _ st) as [[t | e |] st1]; simpl in *;
    split; assumption.
Qed.

(** Nothing follows the failed exchange in such a trace. *)
Lemma stops_at_agent_failure_last {A} (res : outcome A) (delta : list event)
    (pre post : list event) (msg : message) (m : string) :
  stops_at_agent_failure res delta ->
  delta = pre ++ AgentCall msg (AgentFails m) :: post ->
  post = [] /\ res = Raises (PyException m).
Proof.
  intros [Hclean | (pre' & msg' & m' & -> & Hpre & Hres)] Hsplit.
  - subst delta. apply Forall_app in Hclean as [_ Hbad].
    inversion Hbad; subst. discriminate.
  - revert pre Hsplit.
    induction Hpre as [| ev pre' Hev Hpre IH]; intros pre Hsplit.
    + destruct pre as [| ev pre]; simpl in Hsplit.
      * inversion Hsplit; subst. split; reflexivity.
      * apply (f_equal (@tail event)) in Hsplit; simpl in Hsplit.
        destruct pre; discriminate.
    + destruct pre as [| ev' pre]; simpl in Hsplit.
      * inversion Hsplit; subst. discriminate.
      * apply (f_equal (@tail event)) in Hsplit; simpl in Hsplit.
        exact (IH pre Hsplit).
Qed.

(** ** The shell *)

(** A line that is neither blank nor a quit command starts an
    interaction, and the loop goes on with the next input after it. *)
Lemma main_loop_interacts (fuel : nat) (line : string)
    (rest : list input_event) (st : state) :
  truthy (strip line) = true ->
  is_quit (strip line) = false ->
  main_loop fuel (InputLine line :: rest) st =
  bind (interact fuel (strip line)) (fun _ => main_loop fuel rest)
       (printed ["CKA Prompt: "] st).
Proof.
  intros Hprompt Hquit. simpl. unfold bind at 1, print; simpl.
  rewrite Hprompt, Hquit. reflexivity.
Qed.

(** The handler of the shell: the exception is reported, not raised. *)
Lemma interact_reports (fuel : nat) (user_input : string) (st st' : state)
    (e : exn) :
  respond_to_prompt fuel user_input
    (printed [newline +:+ "CKA is thinking..."] st) = (Raises e, st') ->
  interact fuel user_input st =
  (Returns tt,
   printed [newline +:+ "An unexpected error occurred during interaction: "
              +:+ str_exn e;
            "Please try again or type 'quit' to exit." +:+ newline] st').
Proof.
  intros Hrun. unfold interact, try_except, bind, print; simpl.
  fold (printed [newline +:+ "CKA is thinking..."] st). rewrite Hrun.
  unfold printed; simpl. rewrite <- app_assoc. reflexivity.
Qed.

(** C9.  Take an interaction started by a line of input.  If an exchange
    with the agent fails during it, then that exchange is the last entry
    of the trace of the interaction (it is not tried again, and no
    function response follows it), [respond_to_prompt] raises the
    failure to its caller, and the shell prints its report and goes on
    with the rest of the input. *)
Theorem agent_failure_is_fatal_to_the_interaction
    (fuel : nat) (line : string) (rest : list input_event) (st : state) :
  truthy (strip line) = true ->
  is_quit (strip line) = false ->
  let run := respond_to_prompt fuel (strip line)
               (printed [newline +:+ "CKA is thinking..."]
                  (printed ["CKA Prompt: "] st)) in
  exists delta,
    trace (snd run) = trace st ++ delta
    /\ forall pre msg m post,
         delta = pre ++ AgentCall msg (AgentFails m) :: post ->
         post = []
         /\ fst run = Raises (PyException m)
         /\ main_loop fuel (InputLine line :: rest) st =
            main_loop fuel rest
              (printed
                 [newline
                    +:+ "An unexpected error occurred during interaction: "
                    +:+ m;
                  "Please try again or type 'quit' to exit." +:+ newline]
                 (snd run)).
Proof.
  intros Hprompt Hquit run.
  destruct (fatal_respond_to_prompt fuel (strip line)
              (printed [newline +:+ "CKA is thinking..."]
                 (printed ["CKA Prompt: "] st))) as (delta & Ht & Hs).
  exists delta. split; [exact Ht |].
  intros pre msg m post Hsplit.
  destruct (stops_at_agent_failure_last _ _ _ _ _ _ Hs Hsplit)
    as [Hpost Hres].
  split; [exact Hpost | split; [exact Hres |]].
  rewrite main_loop_interacts by assumption.
  unfold bind.
  rewrite (interact_reports fuel (strip line) _ (snd run)
             (PyException m)).
  - reflexivity.
  - subst run. rewrite <- Hres. apply surjective_pairing.
Qed.

End Properties.

(** * The code on concrete runs *)

(** C1.  The agent's turn holds a text part and then a request to call
    [get_template].  The loop looks at the first part only: the
    interaction ends with the text, the call is never dispatched (no
    request reaches the template service, whose scripted answer stays
    unused, and no function response is sent to the agent). *)
Theorem function_call_after_text_is_dropped (fuel : nat) :
  respond_to_prompt fuel "fetch the handoff for session M5.S4"
    (Scripted.start
       [Scripted.turn [TextPart "Let me look that up."; fetch_call]]
       [found]) =
  (Returns "Let me look that up.",
   @State Scripted.scripted_env
     {| Scripted.agent_script := []; Scripted.http_script := [found] |}
     [AgentCall (UserPrompt "fetch the handoff for session M5.S4")
        (Scripted.turn [TextPart "Let me look that up."; fetch_call])]
     []).
Proof. destruct fuel; vm_compute; reflexivity. Qed.

(** C3.  Dispatch of a name that is neither of the two tools: no request
    reaches the template service, and the dict that is returned holds an
    [error] message only; it has no [type] entry, unlike the dict of
    every failure of the two tools, so the failure carries no kind. *)
Theorem unknown_tool_failure_has_no_kind :
  let args : gmap string pyval := {[ "session_id" := PStr "M5.S4" ]} in
  let st := Scripted.start [] [found] in
  let run := dispatch "delete_template" args st in
  exists content,
    fst run = Returns content
    /\ content = {[ "error" := PStr "Function delete_template is not implemented or recognized." ]}
    /\ content !! "type" = None
    /\ trace (snd run) = []
    /\ world (snd run) = world st.
Proof.
  eexists. split; [vm_compute; reflexivity |].
  repeat split; vm_compute; reflexivity.
Qed.

(** C7.  A final turn without any text: its only part is a text part
    with the empty text, or a part that is not text at all.  The reply
    has parts, so the fallback sentence is not used, and the interaction
    returns the empty string. *)
Theorem textless_final_turn_yields_empty_string (fuel : nat) :
  fst (respond_to_prompt fuel "hello"
         (Scripted.start [Scripted.turn [TextPart ""]] [])) = Returns ""
  /\ fst (respond_to_prompt fuel "hello"
            (Scripted.start [Scripted.turn [OtherPart]] [])) = Returns ""
  /\ "" <> no_final_text.
Proof.
  destruct fuel; repeat split; try discriminate; vm_compute; reflexivity.
Qed.

Section Runs.

#[local] Existing Instance Scripted.scripted_env.

(** Scenario A of the spec: the handoff of session M5.S4 does not exist;
    the agent asks for it, reads the failure and answers in text. *)
Example scenario_not_found :
  let run := respond_to_prompt 3 "fetch the handoff for session M5.S4"
               (Scripted.start
                  [Scripted.turn [fetch_call];
                   Scripted.turn [TextPart "There is no such template."]]
                  [not_found]) in
  fst run = Returns "There is no such template."
  /\ agent_messages (trace (snd run)) =
     [UserPrompt "fetch the handoff for session M5.S4";
      FunctionResponse "get_template"
        {[ "error" := PStr "No handoff template found for session M5.S4";
           "type" := PStr "TemplateNotFound" ]}].
Proof. split; vm_compute; reflexivity. Qed.

(** Scenario B of the spec: a summary is created with the default
    status, and the agent answers in text after the result. *)
Example scenario_create :
  let call := FunctionCallPart "create_template"
                {[ "session_id" := PStr "M5.S4";
                   "template_type" := PStr "summary";
                   "content" := PStr "Done." ]} in
  let run := respond_to_prompt 3 "create a summary for M5.S4"
               (Scripted.start
                  [Scripted.turn [call]; Scripted.turn [TextPart "Created."]]
                  [created]) in
  fst run = Returns "Created."
  /\ http_requests (trace (snd run)) =
     [HttpPost "https://templates.example/api/templates"
        {[ "x-api-key" := "secret"; "Content-Type" := "application/json" ]}
        {[ "sessionId" := PStr "M5.S4"; "type" := PStr "summary";
           "content" := PStr "Done."; "status" := PStr "draft" ]}].
Proof. split; vm_compute; reflexivity. Qed.

(** Scenario C of the spec: a final reply without parts, from a response
    object without text. *)
Example scenario_no_parts :
  fst (respond_to_prompt 3 "hello"
         (Scripted.start [Scripted.turn []] [])) = Returns no_final_text.
Proof. vm_compute; reflexivity. Qed.

(** Without fuel left the bounded loop gives up on a further call; with
    one more pass allowed the same run ends. *)
Example fuel_bounds_round_trips :
  let agent := [Scripted.turn [fetch_call]; Scripted.turn [TextPart "ok"]] in
  fst (respond_to_prompt 0 "go" (Scripted.start agent [found])) = Diverges
  /\ fst (respond_to_prompt 1 "go" (Scripted.start agent [found]))
     = Returns "ok".
Proof. split; vm_compute; reflexivity. Qed.

(** A fetch answered with status 404. *)
Lemma get_template_status_mapping_witness :
  let st := Scripted.start [] [not_found] in
  fst (http_send (get_template_request (PStr "M5.S4") (PStr "handoff"))
                 (world st))
    = HttpReplies {| status_code := 404; text := "missing";
                     json := JsonError "Expecting value" |}
  /\ exists msg,
       fst (get_template (PStr "M5.S4") (PStr "handoff") st)
         = Raises (TemplateNotFoundError msg).
Proof.
  intros st. split; [reflexivity |].
  destruct (get_template_status_mapping (PStr "M5.S4") (PStr "handoff") st
              {| status_code := 404; text := "missing";
                 json := JsonError "Expecting value" |} eq_refl)
    as (_ & _ & Hnot_found & _).
  apply Hnot_found. reflexivity.
Defined.

(** A creation answered with status 201. *)
Lemma create_template_status_mapping_witness :
  let st := Scripted.start [] [created] in
  fst (http_send (create_template_request (PStr "M5.S4") (PStr "summary")
                    (PStr "Done.") (PStr "draft") PNone) (world st))
    = HttpReplies {| status_code := 201; text := "{...}";
                     json := JsonValue stored_template |}
  /\ fst (create_template (PStr "M5.S4") (PStr "summary") (PStr "Done.")
                          (PStr "draft") PNone st)
     = Returns stored_template.
Proof.
  intros st. split; [reflexivity |].
  destruct (create_template_status_mapping (PStr "M5.S4") (PStr "summary")
              (PStr "Done.") (PStr "draft") PNone st
              {| status_code := 201; text := "{...}";
                 json := JsonValue stored_template |} eq_refl)
    as (Hcreated & _).
  apply Hcreated; reflexivity.
Defined.

(** The body without metadata, and with [{"tags": ["x"]}]. *)
Lemma create_template_body_witness :
  let tags := PDict [("tags", PList [PStr "x"])] in
  create_template_payload (PStr "M5.S4") (PStr "summary") (PStr "Done.")
                          (PStr "draft") PNone !! "metadata" = None
  /\ create_template_payload (PStr "M5.S4") (PStr "summary") (PStr "Done.")
                             (PStr "draft") tags !! "metadata" = Some tags.
Proof.
  intros tags. split.
  - destruct (create_template_body (PStr "M5.S4") (PStr "summary")
                (PStr "Done.") (PStr "draft") PNone (Scripted.start [] []))
      as (_ & Habsent & _).
    apply Habsent. reflexivity.
  - destruct (create_template_body (PStr "M5.S4") (PStr "summary")
                (PStr "Done.") (PStr "draft") tags (Scripted.start [] []))
      as (_ & _ & Hpresent & _).
    apply Hpresent. discriminate.
Defined.

(** Calls that give a session id only, and one that names its type. *)
Lemma dispatch_argument_defaults_witness :
  let st := Scripted.start [] [found] in
  let args : gmap string pyval := {[ "session_id" := PStr "M5.S4" ]} in
  args !! "template_type" = None
  /\ args !! "status" = None
  /\ http_requests (trace (snd (dispatch "get_template" args st)))
     = [get_template_request (PStr "M5.S4") (PStr "handoff")]
  /\ http_requests (trace (snd (dispatch "create_template" args st)))
     = [create_template_request (PStr "M5.S4") PNone PNone (PStr "draft")
                                PNone]
  /\ http_requests
       (trace (snd (dispatch "get_template"
                      (<[ "template_type" := PStr "summary" ]> args) st)))
     = [get_template_request (PStr "M5.S4") (PStr "summary")].
Proof.
  intros st args.
  split; [reflexivity |]. split; [reflexivity |].
  destruct (dispatch_argument_defaults args st)
    as (Hhandoff & _ & Hdraft & _).
  destruct (dispatch_argument_defaults
              (<[ "template_type" := PStr "summary" ]> args) st)
    as (_ & Hgiven & _).
  split; [| split].
  - apply Hhandoff. reflexivity.
  - apply Hdraft. reflexivity.
  - apply (Hgiven (PStr "summary")). reflexivity.
Defined.

(** A [get_template] call without session id, answered with status 200. *)
Lemma dispatch_forwards_missing_arguments_witness :
  let st := Scripted.start [] [found] in
  let args : gmap string pyval := {[ "template_type" := PStr "handoff" ]} in
  args !! "session_id" = None
  /\ http_requests (trace (snd (dispatch "get_template" args st)))
     = [HttpGet "https://templates.example/api/templates/None"
                {[ "x-api-key" := "secret" ]}
                {[ "type" := PStr "handoff" ]}]
  /\ fst (dispatch "get_template" args st)
     = Returns {[ "result" := stored_template ]}.
Proof.
  intros st args. split; [reflexivity |].
  destruct (dispatch_forwards_missing_arguments args st) as (Hget & _).
  destruct (Hget eq_refl) as (_ & Hreq & Hres).
  split; [exact Hreq |].
  apply (Hres {| status_code := 200; text := "{...}";
                 json := JsonValue stored_template |} stored_template);
    reflexivity.
Defined.

(** The agent asks for a template and is gone when the result is sent
    back: the shell reports the failure and reads the next line. *)
Lemma agent_failure_is_fatal_to_the_interaction_witness :
  let line := "  fetch the handoff for session M5.S4 " in
  let rest := [InputLine "quit"] in
  let st := Scripted.start [Scripted.turn [fetch_call]] [not_found] in
  truthy (strip line) = true
  /\ is_quit (strip line) = false
  /\ main_loop 3 (InputLine line :: rest) st =
     main_loop 3 rest
       (printed
          [newline +:+ "An unexpected error occurred during interaction: "
             +:+ "agent unavailable";
           "Please try again or type 'quit' to exit." +:+ newline]
          (snd (respond_to_prompt 3 (strip line)
                  (printed [newline +:+ "CKA is thinking..."]
                     (printed ["CKA Prompt: "] st))))).
Proof.
  intros line rest st.
  split; [reflexivity |]. split; [reflexivity |].
  destruct (agent_failure_is_fatal_to_the_interaction 3 line rest st
              eq_refl eq_refl) as (delta & Htrace & Hfatal).
  vm_compute in Htrace. subst delta.
  match type of Hfatal with
  | forall pre msg m post, [?a; ?b; ?c] = _ -> _ =>
      destruct (Hfatal [a; b] (FunctionResponse "get_template"
                  {[ "error" :=
                       PStr "No handoff template found for session M5.S4";
                     "type" := PStr "TemplateNotFound" ]})
                  "agent unavailable" [] eq_refl) as (_ & _ & Hshell)
  end.
  exact Hshell.
Defined.

End Runs.

(** * Further properties *)

(** ** config_loader.py *)

Lemma not_set_false (value : option string) :
  not_set value = false <-> exists v, value = Some v /\ v <> "".
Proof.
  destruct value as [[| ch v] |]; simpl.
  - split; [discriminate |].
    intros (v' & Hv & Hne). congruence.
  - split; [| reflexivity].
    intros _. eexists. split; [reflexivity | discriminate].
  - split; [discriminate |].
    intros (v' & Hv & _). discriminate.
Qed.

(** X1.  The import of [config_loader] succeeds exactly when the three
    variables are set and not empty, and then its globals hold their
    values. *)
Theorem config_loader_loads_iff (environ : gmap string string) (c : config) :
  config_loader environ = inr c
  <-> (environ !! "GEMINI_API_KEY" = Some (config_GEMINI_API_KEY c)
       /\ config_GEMINI_API_KEY c <> ""
       /\ environ !! "TEMPLATE_EXCHANGE_API_KEY"
          = Some (config_TEMPLATE_EXCHANGE_API_KEY c)
       /\ config_TEMPLATE_EXCHANGE_API_KEY c <> ""
       /\ environ !! "TEMPLATE_EXCHANGE_API_BASE_URL"
          = Some (config_TEMPLATE_EXCHANGE_API_BASE_URL c)
       /\ config_TEMPLATE_EXCHANGE_API_BASE_URL c <> "").
Proof.
  unfold config_loader. split.
  - destruct (not_set (environ !! "GEMINI_API_KEY")) eqn:Hg; [discriminate |].
    destruct (not_set (environ !! "TEMPLATE_EXCHANGE_API_KEY")) eqn:Hk;
      [discriminate |].
    destruct (not_set (environ !! "TEMPLATE_EXCHANGE_API_BASE_URL")) eqn:Hu;
      [discriminate |].
    apply not_set_false in Hg as (g & -> & Hg).
    apply not_set_false in Hk as (k & -> & Hk).
    apply not_set_false in Hu as (u & -> & Hu).
    intros Hc. injection Hc as <-. simpl. repeat split; assumption.
  - intros (Hg & Hgne & Hk & Hkne & Hu & Hune).
    rewrite Hg, Hk, Hu.
    rewrite (proj2 (not_set_false (Some _))) by eauto.
    rewrite (proj2 (not_set_false (Some _))) by eauto.
    rewrite (proj2 (not_set_false (Some _))) by eauto.
    destruct c; reflexivity.
Qed.

(** X2.  When a variable is unset or empty, the import stops with an
    error for the first such variable in the order [GEMINI_API_KEY],
    [TEMPLATE_EXCHANGE_API_KEY], [TEMPLATE_EXCHANGE_API_BASE_URL],
    whatever the later ones are. *)
Theorem config_loader_reports_first_missing (environ : gmap string string) :
  let unset name := environ !! name = None \/ environ !! name = Some "" in
  (unset "GEMINI_API_KEY" ->
   config_loader environ
     = inl (PyException
              "GEMINI_API_KEY not found in environment variables or .env file."))
  /\ (~ unset "GEMINI_API_KEY" -> unset "TEMPLATE_EXCHANGE_API_KEY" ->
      config_loader environ
        = inl (PyException
                 "TEMPLATE_EXCHANGE_API_KEY not found in environment variables or .env file."))
  /\ (~ unset "GEMINI_API_KEY" -> ~ unset "TEMPLATE_EXCHANGE_API_KEY" ->
      unset "TEMPLATE_EXCHANGE_API_BASE_URL" ->
      config_loader environ
        = inl (PyException
                 "TEMPLATE_EXCHANGE_API_BASE_URL not found in environment variables or .env file.")).
Proof.
  intros unset.
  assert (Hunset : forall name, unset name <-> not_set (environ !! name) = true).
  { intros name. subst unset; simpl.
    destruct (environ !! name) as [[| ch v] |]; simpl; split;
      try reflexivity; try discriminate; auto.
    intros [H | H]; discriminate. }
  unfold config_loader. repeat split.
  - intros Hg. apply Hunset in Hg. rewrite Hg. reflexivity.
  - intros Hg Hk. apply Hunset in Hk.
    destruct (not_set (environ !! "GEMINI_API_KEY")) eqn:Eg;
      [exfalso; apply Hg, Hunset, Eg |].
    rewrite Hk. reflexivity.
  - intros Hg Hk Hu. apply Hunset in Hu.
    destruct (not_set (environ !! "GEMINI_API_KEY")) eqn:Eg;
      [exfalso; apply Hg, Hunset, Eg |].
    destruct (not_set (environ !! "TEMPLATE_EXCHANGE_API_KEY")) eqn:Ek;
      [exfalso; apply Hk, Hunset, Ek |].
    rewrite Hu. reflexivity.
Qed.

Section FurtherProperties.

Context `{env : Environment}.

(** ** template_exchange_client.py *)

(** X3.  The two client calls return a value in one case only:
    [get_template] when the service answers with status 200 and a body
    that decodes, [create_template] when it answers with status 201 and
    a body that decodes.  Any other 2xx status is a failure, and so is a
    200 answer to [create_template]. *)
Theorem client_returns_iff
    (session_id template_type content status metadata v : pyval)
    (st : state) :
  (fst (get_template session_id template_type st) = Returns v
   <-> exists r,
         fst (http_send (get_template_request session_id template_type)
                        (world st)) = HttpReplies r
         /\ status_code r = 200 /\ json r = JsonValue v)
  /\ (fst (create_template session_id template_type content status
                           metadata st) = Returns v
      <-> exists r,
            fst (http_send (create_template_request session_id template_type
                              content status metadata) (world st))
              = HttpReplies r
            /\ status_code r = 201 /\ json r = JsonValue v).
Proof.
  split.
  - rewrite get_template_result.
    destruct (fst (http_send _ _)) as [r | msg].
    + destruct (Z.eqb_spec (status_code r) 200) as [E | N].
      * split.
        -- intros Hv. exists r. repeat split; [exact E |].
           destruct (json r); [congruence | discriminate].
        -- intros (r' & Hr & _ & Hj). injection Hr as <-.
           rewrite Hj. reflexivity.
      * split.
        -- destruct (status_code r =? 404)%Z; [discriminate |].
           destruct (status_code r =? 401)%Z; discriminate.
        -- intros (r' & Hr & E & _). injection Hr as <-. contradiction.
    + split; [discriminate | intros (r & Hr & _); discriminate].
  - rewrite create_template_result.
    destruct (fst (http_send _ _)) as [r | msg].
    + destruct (Z.eqb_spec (status_code r) 201) as [E | N].
      * split.
        -- intros Hv. exists r. repeat split; [exact E |].
           destruct (json r); [congruence | discriminate].
        -- intros (r' & Hr & _ & Hj). injection Hr as <-.
           rewrite Hj. reflexivity.
      * split.
        -- destruct (status_code r =? 401)%Z; discriminate.
        -- intros (r' & Hr & E & _). injection Hr as <-. contradiction.
    + split; [discriminate | intros (r & Hr & _); discriminate].
Qed.

(** ** Dispatch and client together *)

(** X4.  What the agent is told after a [get_template] call, read off the
    answer of the template service.  [session_id] and [template_type]
    are the arguments as dispatch passes them on. *)
Theorem get_template_outcome_table (args : gmap string pyval) (st : state) :
  let session_id := default PNone (args !! "session_id") in
  let template_type := default (PStr "handoff") (args !! "template_type") in
  fst (dispatch "get_template" args st) =
  Returns
    match fst (http_send (get_template_request session_id template_type)
                         (world st)) with
    | HttpFails msg =>
        {[ "error" := PStr ("Unexpected error calling get_template: "
                              +:+ msg);
           "type" := PStr "ClientExecutionError" ]}
    | HttpReplies r =>
        if (status_code r =? 200)%Z then
          match json r with
          | JsonValue v => {[ "result" := v ]}
          | JsonError msg =>
              {[ "error" := PStr ("Unexpected error calling get_template: "
                                    +:+ msg);
                 "type" := PStr "ClientExecutionError" ]}
          end
        else if (status_code r =? 404)%Z then
          {[ "error" := PStr ("No " +:+ py_str template_type
                                +:+ " template found for session "
                                +:+ py_str session_id);
             "type" := PStr "TemplateNotFound" ]}
        else if (status_code r =? 401)%Z then
          {[ "error" := PStr "Authentication failed. Check API key.";
             "type" := PStr "AuthenticationError" ]}
        else
          {[ "error" := PStr ("API request failed with status "
                                +:+ str_of_int (status_code r)
                                +:+ ": " +:+ text r);
             "type" := PStr "APIFailure" ]}
    end.
Proof.
  intros session_id template_type. subst session_id template_type.
  rewrite dispatch_get_template; simpl. rewrite get_template_result.
  destruct (fst (http_send _ _)) as [r | msg]; [| reflexivity].
  destruct (status_code r =? 200)%Z; [destruct (json r); reflexivity |].
  destruct (status_code r =? 404)%Z; [reflexivity |].
  destruct (status_code r =? 401)%Z; reflexivity.
Qed.

(** X5.  What the agent is told after a [create_template] call, read off
    the answer of the template service.  A 404 answer is an
    [APIFailure] here. *)
Theorem create_template_outcome_table
    (args : gmap string pyval) (st : state) :
  let req := create_template_request
               (default PNone (args !! "session_id"))
               (default PNone (args !! "template_type"))
               (default PNone (args !! "content"))
               (default (PStr "draft") (args !! "status"))
               (default PNone (args !! "metadata")) in
  fst (dispatch "create_template" args st) =
  Returns
    match fst (http_send req (world st)) with
    | HttpFails msg =>
        {[ "error" := PStr ("Unexpected error calling create_template: "
                              +:+ msg);
           "type" := PStr "ClientExecutionError" ]}
    | HttpReplies r =>
        if (status_code r =? 201)%Z then
          match json r with
          | JsonValue v => {[ "result" := v ]}
          | JsonError msg =>
              {[ "error" := PStr ("Unexpected error calling create_template: "
                                    +:+ msg);
                 "type" := PStr "ClientExecutionError" ]}
          end
        else if (status_code r =? 401)%Z then
          {[ "error" := PStr "Authentication failed. Check API key.";
             "type" := PStr "AuthenticationError" ]}
        else
          {[ "error" := PStr ("API request failed with status "
                                +:+ str_of_int (status_code r)
                                +:+ ": " +:+ text r);
             "type" := PStr "APIFailure" ]}
    end.
Proof.
  intros req. subst req.
  rewrite dispatch_create_template; simpl. rewrite create_template_result.
  destruct (fst (http_send _ _)) as [r | msg]; [| reflexivity].
  destruct (status_code r =? 201)%Z; [destruct (json r); reflexivity |].
  destruct (status_code r =? 401)%Z; reflexivity.
Qed.

(** X6.  The dict that dispatch returns has one of three shapes: a [result]
    alone; an [error] with one of the four [type] tags, for the two
    tools only; an [error] alone, for any other name only.  It never
    holds a [result] and an [error] together. *)
Theorem dispatch_content_shape (function_name : string)
    (args : gmap string pyval) (st : state) :
  let known := function_name = "get_template"
               \/ function_name = "create_template" in
  exists content,
    fst (dispatch function_name args st) = Returns content
    /\ ((known /\ exists v, content = {[ "result" := v ]})
        \/ (known /\ exists msg tag,
              content = {[ "error" := PStr msg; "type" := PStr tag ]}
              /\ tag ∈ ["TemplateNotFound"; "AuthenticationError";
                        "APIFailure"; "ClientExecutionError"])
        \/ (~ known /\ exists msg, content = {[ "error" := PStr msg ]})).
Proof.
  intros known. subst known.
  destruct (String.eqb_spec function_name "get_template") as [-> | Hget].
  { eexists. split; [apply get_template_outcome_table |].
    destruct (fst (http_send _ _)) as [r | msg].
    - destruct (status_code r =? 200)%Z.
      + destruct (json r); [left; eauto |].
        right; left. split; [auto |]. do 2 eexists.
        split; [reflexivity | set_solver].
      + destruct (status_code r =? 404)%Z;
          [| destruct (status_code r =? 401)%Z];
          (right; left; split; [auto |]; do 2 eexists;
           split; [reflexivity | set_solver]).
    - right; left. split; [auto |]. do 2 eexists.
      split; [reflexivity | set_solver]. }
  destruct (String.eqb_spec function_name "create_template") as [-> | Hcreate].
  { eexists. split; [apply create_template_outcome_table |].
    destruct (fst (http_send _ _)) as [r | msg].
    - destruct (status_code r =? 201)%Z.
      + destruct (json r); [left; eauto |].
        right; left. split; [auto |]. do 2 eexists.
        split; [reflexivity | set_solver].
      + destruct (status_code r =? 401)%Z;
          (right; left; split; [auto |]; do 2 eexists;
           split; [reflexivity | set_solver]).
    - right; left. split; [auto |]. do 2 eexists.
      split; [reflexivity | set_solver]. }
  rewrite dispatch_unknown by assumption. eexists. split; [reflexivity |].
  right; right. split; [intros [H | H]; contradiction | eauto].
Qed.

(** X7.  Dispatch reads the arguments of the schema and no other: an
    argument under any other name changes nothing, and raises no
    complaint. *)
Theorem dispatch_ignores_other_arguments (k : string) (v : pyval)
    (args : gmap string pyval) (st : state) :
  (k <> "session_id" -> k <> "template_type" ->
   dispatch "get_template" (<[ k := v ]> args) st
     = dispatch "get_template" args st)
  /\ (k <> "session_id" -> k <> "template_type" -> k <> "content" ->
      k <> "status" -> k <> "metadata" ->
      dispatch "create_template" (<[ k := v ]> args) st
        = dispatch "create_template" args st).
Proof.
  split.
  - intros H1 H2. rewrite !dispatch_get_template.
    rewrite !lookup_insert_ne by assumption. reflexivity.
  - intros H1 H2 H3 H4 H5. rewrite !dispatch_create_template.
    rewrite !lookup_insert_ne by assumption. reflexivity.
Qed.

(** ** The loop reads one part *)

(** One step of the loop, whatever the fuel. *)
Lemma tool_loop_eq (fuel : nat) (r : response) :
  tool_loop fuel r =
  bind (response_parts r)
    (fun parts =>
       match parts with
       | part0 :: _ =>
           if requests_function_call parts then
             match fuel with
             | O => diverge
             | S fuel' =>
                 bind (handle_function_call part0) (tool_loop fuel')
             end
           else ret r
       | [] => ret r
       end).
Proof. destruct fuel; reflexivity. Qed.

(** X8.  When the first part of a reply names a function, nothing else in
    the reply matters to the rest of the interaction: not the parts that
    follow (further function calls among them, which are never
    dispatched), not the other candidates, not the text accessor. *)
Theorem tool_loop_reads_first_part (fuel : nat) (r r' : response)
    (part0 : part) (parts parts' : list part)
    (others others' : list (list part)) (st : state) :
  truthy (function_call_name part0) = true ->
  candidates r = (part0 :: parts) :: others ->
  candidates r' = (part0 :: parts') :: others' ->
  tool_loop fuel r st = tool_loop fuel r' st.
Proof.
  intros Hcall Hr Hr'.
  rewrite (tool_loop_eq fuel r), (tool_loop_eq fuel r').
  unfold bind, response_parts. rewrite Hr, Hr'; simpl. rewrite Hcall.
  reflexivity.
Qed.

(** ** Traces of computations *)

Lemma silent_extends (G : list event -> Prop) {A} (c : M A) :
  G [] -> silent c -> extends_trace G c.
Proof.
  intros Hnil Hc st. exists []. rewrite Hc, app_nil_r. auto.
Qed.

Lemma silent_ret {A} (a : A) : silent (ret a).
Proof. intros st. reflexivity. Qed.

Lemma silent_raise {A} (e : exn) : silent (@raise _ A e).
Proof. intros st. reflexivity. Qed.

Lemma silent_diverge {A} : silent (@diverge _ A).
Proof. intros st. reflexivity. Qed.

Lemma silent_print (line : string) : silent (print line).
Proof. intros st. reflexivity. Qed.

Lemma silent_bind {A B} (m : M A) (k : A -> M B) :
  silent m -> (forall a, silent (k a)) -> silent (bind m k).
Proof.
  intros Hm Hk st. unfold bind. specialize (Hm st).
  destruct (m st) as [[a | e |] st1]; simpl in *; try assumption.
  rewrite Hk. assumption.
Qed.

Lemma silent_response_parts (r : response) : silent (response_parts r).
Proof.
  unfold response_parts.
  destruct (candidates r); [apply silent_raise | apply silent_ret].
Qed.

Lemma silent_final_text (r : response) : silent (final_text r).
Proof.
  unfold final_text.
  apply silent_bind; [apply silent_response_parts | intros parts].
  destruct parts; [| apply silent_ret].
  destruct (response_text r) as [| t | msg];
    [apply silent_ret | | apply silent_raise].
  destruct (truthy t); apply silent_ret.
Qed.

Lemma extends_sequence (G1 G2 G : list event -> Prop) {A B}
    (m : M A) (k : A -> M B) :
  extends_trace G1 m -> (forall a, extends_trace G2 (k a)) ->
  (forall d1, G1 d1 -> G d1) ->
  (forall d1 d2, G1 d1 -> G2 d2 -> G (d1 ++ d2)) ->
  extends_trace G (bind m k).
Proof.
  intros Hm Hk Hstop Hseq st. destruct (Hm st) as (d1 & Ht1 & Hg1).
  unfold bind. destruct (m st) as [[a | e |] st1]; simpl in *; eauto.
  destruct (Hk a st1) as (d2 & Ht2 & Hg2).
  exists (d1 ++ d2). rewrite Ht2, Ht1, app_assoc. auto.
Qed.

Lemma extends_bind (G : list event -> Prop) {A B} (m : M A) (k : A -> M B) :
  sequential G ->
  extends_trace G m -> (forall a, extends_trace G (k a)) ->
  extends_trace G (bind m k).
Proof.
  intros [Hnil Hseq] Hm Hk st. destruct (Hm st) as (d1 & Ht1 & Hg1).
  unfold bind. destruct (m st) as [[a | e |] st1]; simpl in *; eauto.
  destruct (Hk a st1) as (d2 & Ht2 & Hg2).
  exists (d1 ++ d2). rewrite Ht2, Ht1, app_assoc. auto.
Qed.

(** A silent computation before or after changes nothing. *)
Lemma extends_after_silent (G : list event -> Prop) {A B}
    (m : M A) (k : A -> M B) :
  G [] -> silent m -> (forall a, extends_trace G (k a)) ->
  extends_trace G (bind m k).
Proof.
  intros Hnil Hm Hk st. unfold bind. specialize (Hm st).
  destruct (m st) as [[a | e |] st1]; simpl in *;
    try (exists []; rewrite Hm, app_nil_r; auto).
  destruct (Hk a st1) as (d & Ht & Hg). exists d. rewrite Ht, Hm. auto.
Qed.

Lemma extends_after_print (G : list event -> Prop) {B}
    (line : string) (c : M B) :
  extends_trace G c -> extends_trace G (bind (print line) (fun _ => c)).
Proof.
  intros Hc st. unfold bind, print; simpl.
  destruct (Hc {| world := world st; trace := trace st;
                  stdout := stdout st ++ [line] |}) as (d & Ht & Hg).
  exists d. auto.
Qed.

Lemma extends_before_silent (G : list event -> Prop) {A B}
    (m : M A) (k : A -> M B) :
  extends_trace G m -> (forall a, silent (k a)) ->
  extends_trace G (bind m k).
Proof.
  intros Hm Hk st. destruct (Hm st) as (d & Ht & Hg). unfold bind.
  destruct (m st) as [[a | e |] st1]; simpl in *; eauto.
  exists d. rewrite Hk. auto.
Qed.

Lemma extends_try_except_silent (G : list event -> Prop) {A}
    (m : M A) (handler : exn -> M A) :
  extends_trace G m -> (forall e, silent (handler e)) ->
  extends_trace G (try_except m handler).
Proof.
  intros Hm Hh st. destruct (Hm st) as (d & Ht & Hg). unfold try_except.
  destruct (m st) as [[a | e |] st1]; simpl in *; eauto.
  exists d. rewrite Hh. auto.
Qed.

Lemma extends_weaken (G G' : list event -> Prop) {A} (c : M A) :
  (forall d, G d -> G' d) -> extends_trace G c -> extends_trace G' c.
Proof.
  intros Hsub Hc st. destruct (Hc st) as (d & Ht & Hg). eauto.
Qed.

Lemma send_message_trace (msg : message) (st : state) :
  trace (snd (send_message msg st)) =
  trace st ++ [AgentCall msg (fst (agent_send msg (world st)))].
Proof.
  unfold send_message.
  destruct (agent_send msg (world st)) as [[r | m] w]; reflexivity.
Qed.

(** What dispatch adds to the trace. *)
Lemma dispatch_trace (function_name : string) (args : gmap string pyval)
    (st : state) :
  trace (snd (dispatch function_name args st)) =
  trace st ++
    (if String.eqb function_name "get_template" then
       let req := get_template_request
                    (default PNone (args !! "session_id"))
                    (default (PStr "handoff") (args !! "template_type")) in
       [HttpCall req (fst (http_send req (world st)))]
     else if String.eqb function_name "create_template" then
       let req := create_template_request
                    (default PNone (args !! "session_id"))
                    (default PNone (args !! "template_type"))
                    (default PNone (args !! "content"))
                    (default (PStr "draft") (args !! "status"))
                    (default PNone (args !! "metadata")) in
       [HttpCall req (fst (http_send req (world st)))]
     else []).
Proof.
  destruct (String.eqb_spec function_name "get_template") as [-> | Hget].
  { rewrite dispatch_get_template_state. reflexivity. }
  destruct (String.eqb_spec function_name "create_template") as [-> | Hcreate].
  { rewrite dispatch_create_template_state. reflexivity. }
  rewrite dispatch_unknown by assumption. simpl. rewrite app_nil_r.
  reflexivity.
Qed.

(** What one pass through the body of the loop adds to the trace. *)
Lemma handle_function_call_trace (part0 : part) (st : state) :
  exists content reply,
    trace (snd (handle_function_call part0 st)) =
    trace (snd (dispatch (function_call_name part0)
                         (function_call_args part0)
                         (announced (function_call_name part0)
                                    (function_call_args part0) st)))
      ++ [AgentCall (FunctionResponse (function_call_name part0) content)
                    reply].
Proof.
  destruct (handle_function_call_sends (function_call_name part0)
              (function_call_args part0) st) as (content & _ & Hsend).
  change (handle_function_call
            (FunctionCallPart (function_call_name part0)
                              (function_call_args part0)) st)
    with (handle_function_call part0 st) in Hsend.
  rewrite Hsend, send_message_trace. eauto.
Qed.

(** ** Every request is authenticated and addressed *)

Lemma get_template_request_well_addressed (session_id template_type : pyval) :
  well_addressed (get_template_request session_id template_type).
Proof.
  split; [apply lookup_singleton_eq |].
  exists ("/" +:+ py_str session_id). reflexivity.
Qed.

Lemma create_template_request_well_addressed
    (session_id template_type content status metadata : pyval) :
  well_addressed (create_template_request session_id template_type content
                                          status metadata).
Proof.
  split; [apply lookup_insert_eq |].
  exists "". reflexivity.
Qed.

Lemma sequential_Forall (P : event -> Prop) : sequential (Forall P).
Proof.
  split; [constructor |]. intros d1 d2 H1 H2. apply Forall_app; auto.
Qed.

Lemma well_addressed_dispatch (function_name : string)
    (args : gmap string pyval) :
  extends_trace (Forall well_addressed_event) (dispatch function_name args).
Proof.
  intros st. eexists. split; [apply dispatch_trace |].
  destruct (String.eqb function_name "get_template").
  { simpl. constructor; [| constructor].
    apply get_template_request_well_addressed. }
  destruct (String.eqb function_name "create_template").
  { simpl. constructor; [| constructor].
    apply create_template_request_well_addressed. }
  constructor.
Qed.

Lemma well_addressed_send_message (msg : message) :
  extends_trace (Forall well_addressed_event) (send_message msg).
Proof.
  intros st. eexists. split; [apply send_message_trace |].
  constructor; [exact I | constructor].
Qed.

Lemma well_addressed_tool_loop (fuel : nat) :
  forall r, extends_trace (Forall well_addressed_event) (tool_loop fuel r).
Proof.
  pose proof (sequential_Forall well_addressed_event) as Hseq.
  induction fuel as [| fuel IH]; intros r; rewrite tool_loop_eq;
    (apply extends_after_silent;
     [constructor | apply silent_response_parts | intros parts]);
    destruct parts as [| part0 parts];
    try (apply silent_extends; [constructor | apply silent_ret]);
    destruct (requests_function_call (part0 :: parts));
    try (apply silent_extends; [constructor | apply silent_ret]).
  - apply silent_extends; [constructor | apply silent_diverge].
  - apply extends_bind; [exact Hseq | | exact IH].
    unfold handle_function_call. apply extends_after_print.
    apply extends_bind;
      [exact Hseq | apply well_addressed_dispatch | intros content].
    apply well_addressed_send_message.
Qed.

Lemma well_addressed_respond_to_prompt (fuel : nat) (user_prompt : string) :
  extends_trace (Forall well_addressed_event)
                (respond_to_prompt fuel user_prompt).
Proof.
  pose proof (sequential_Forall well_addressed_event) as Hseq.
  unfold respond_to_prompt. apply extends_try_except_silent.
  - apply extends_bind;
      [exact Hseq | apply well_addressed_send_message | intros r].
    apply extends_before_silent;
      [apply well_addressed_tool_loop | apply silent_final_text].
  - intros e. apply silent_bind; [apply silent_print | intros _].
    apply silent_raise.
Qed.

Lemma well_addressed_interact (fuel : nat) (user_input : string) :
  extends_trace (Forall well_addressed_event) (interact fuel user_input).
Proof.
  unfold interact. apply extends_try_except_silent.
  - apply extends_after_print. apply extends_before_silent;
      [apply well_addressed_respond_to_prompt | intros t].
    repeat (apply silent_bind; [apply silent_print | intros _]).
    apply silent_print.
  - intros e. apply silent_bind; [apply silent_print | intros _].
    apply silent_print.
Qed.

Lemma well_addressed_main_loop (fuel : nat) (inputs : list input_event) :
  extends_trace (Forall well_addressed_event) (main_loop fuel inputs).
Proof.
  pose proof (sequential_Forall well_addressed_event) as Hseq.
  induction inputs as [| [line |] rest IH]; simpl;
    apply extends_after_print;
    try (apply silent_extends; [constructor | apply silent_print]).
  destruct (negb (truthy (strip line))); [exact IH |].
  destruct (is_quit (strip line));
    [apply silent_extends; [constructor | apply silent_print] |].
  apply extends_bind; [exact Hseq | apply well_addressed_interact |].
  intros _. exact IH.
Qed.

Lemma well_addressed_requests (delta : list event) :
  Forall well_addressed_event delta ->
  Forall well_addressed (http_requests delta).
Proof.
  induction 1 as [| [req res | msg res] delta Hev _ IH]; simpl.
  - constructor.
  - constructor; assumption.
  - exact IH.
Qed.

(** X9.  Whatever the user types and whatever the agent asks for, every
    request that a session of the shell sends to the template service
    carries the configured API key in its [x-api-key] header, and its
    URL is the configured base URL followed by [/api/templates]. *)
Theorem every_request_is_well_addressed
    (fuel : nat) (inputs : list input_event) (st : state) :
  exists delta,
    trace (snd (main fuel inputs st)) = trace st ++ delta
    /\ Forall well_addressed (http_requests delta).
Proof.
  assert (Hmain : extends_trace (Forall well_addressed_event)
                                (main fuel inputs)).
  { unfold main. repeat apply extends_after_print.
    destruct (negb (truthy GEMINI_API_KEY)).
    - apply silent_extends; [constructor |].
      apply silent_bind; [apply silent_print | intros _].
      apply silent_print.
    - apply extends_after_print. apply well_addressed_main_loop. }
  destruct (Hmain st) as (delta & Ht & Hd).
  exists delta. split; [exact Ht | apply well_addressed_requests, Hd].
Qed.

(** ** The exchanges of an interaction *)

Lemma sequential_tool_rounds : sequential tool_rounds.
Proof.
  split; [constructor |].
  intros d1 d2 H1 H2. induction H1; simpl; try constructor; assumption.
Qed.

Lemma tool_rounds_handle_function_call (part0 : part) :
  extends_trace tool_rounds (handle_function_call part0).
Proof.
  intros st.
  destruct (handle_function_call_trace part0 st) as (content & reply & Ht).
  rewrite Ht, dispatch_trace; simpl. rewrite <- app_assoc.
  eexists. split; [reflexivity |].
  destruct (String.eqb_spec (function_call_name part0) "get_template")
    as [-> | Hget]; [simpl; repeat constructor |].
  destruct (String.eqb_spec (function_call_name part0) "create_template")
    as [-> | Hcreate]; [simpl; repeat constructor |].
  simpl. apply rounds_unknown; [assumption | assumption | constructor].
Qed.

Lemma tool_rounds_tool_loop (fuel : nat) :
  forall r, extends_trace tool_rounds (tool_loop fuel r).
Proof.
  pose proof sequential_tool_rounds as Hseq.
  induction fuel as [| fuel IH]; intros r; rewrite tool_loop_eq;
    (apply extends_after_silent;
     [constructor | apply silent_response_parts | intros parts]);
    destruct parts as [| part0 parts];
    try (apply silent_extends; [constructor | apply silent_ret]);
    destruct (requests_function_call (part0 :: parts));
    try (apply silent_extends; [constructor | apply silent_ret]).
  - apply silent_extends; [constructor | apply silent_diverge].
  - apply extends_bind;
      [exact Hseq | apply tool_rounds_handle_function_call | exact IH].
Qed.

(** X10.  The exchanges of one interaction, in order: the prompt goes to the
    agent first, as it was given; then come the passes through the loop,
    each with at most one request to the template service, a [GET] for
    [get_template] and a [POST] for [create_template], always followed
    by the function response under the name that was called. *)
Theorem interaction_exchanges (fuel : nat) (user_prompt : string)
    (st : state) :
  exists reply rounds,
    trace (snd (respond_to_prompt fuel user_prompt st)) =
    trace st ++ AgentCall (UserPrompt user_prompt) reply :: rounds
    /\ tool_rounds rounds.
Proof.
  assert (Hrun : extends_trace
                   (fun d => exists reply rounds,
                      d = AgentCall (UserPrompt user_prompt) reply :: rounds
                      /\ tool_rounds rounds)
                   (respond_to_prompt fuel user_prompt)).
  { unfold respond_to_prompt. apply extends_try_except_silent.
    - apply (extends_sequence
               (fun d => exists reply,
                  d = [AgentCall (UserPrompt user_prompt) reply])
               tool_rounds).
      + intros st'. eexists. split; [apply send_message_trace | eauto].
      + intros r. apply extends_before_silent;
          [apply tool_rounds_tool_loop | apply silent_final_text].
      + intros d1 (reply & ->). exists reply, []. split; [| constructor].
        reflexivity.
      + intros d1 d2 (reply & ->) Hrounds. exists reply, d2. auto.
    - intros e. apply silent_bind; [apply silent_print | intros _].
      apply silent_raise. }
  destruct (Hrun st) as (delta & Ht & reply & rounds & -> & Hrounds).
  eauto.
Qed.

(** ** The shell as a whole *)

(** The handler of the shell absorbs every exception. *)
Lemma interact_never_raises (fuel : nat) (user_input : string) (st : state) :
  fst (interact fuel user_input st) = Returns tt
  \/ fst (interact fuel user_input st) = Diverges.
Proof.
  unfold interact, try_except.
  match goal with
  | |- context [match ?body st with _ => _ end] =>
      destruct (body st) as [[[] | e |] st1]
  end; simpl; auto.
Qed.

(** One iteration of the loop of the shell on a line of input. *)
Lemma main_loop_line (fuel : nat) (line : string) (rest : list input_event)
    (st : state) :
  main_loop fuel (InputLine line :: rest) st =
  (if negb (truthy (strip line)) then main_loop fuel rest
   else if is_quit (strip line) then print "Exiting CK Assistant. Goodbye!"
   else bind (interact fuel (strip line)) (fun _ => main_loop fuel rest))
    (printed ["CKA Prompt: "] st).
Proof. reflexivity. Qed.

Lemma main_loop_never_raises (fuel : nat) (inputs : list input_event) :
  forall st,
    fst (main_loop fuel inputs st) = Returns tt
    \/ fst (main_loop fuel inputs st) = Diverges.
Proof.
  induction inputs as [| [line |] rest IH]; intros st;
    [left; reflexivity | | left; reflexivity].
  rewrite main_loop_line.
  destruct (negb (truthy (strip line))); [apply IH |].
  destruct (is_quit (strip line)); [left; reflexivity |].
  unfold bind.
  destruct (interact_never_raises fuel (strip line)
              (printed ["CKA Prompt: "] st)) as [Hi | Hi];
    destruct (interact fuel (strip line) _) as [[[] | e |] st1];
    simpl in Hi; try discriminate; auto.
Qed.

(** X11.  No exception leaves the shell: whatever the input, the agent and the
    template service do, [main] returns, or the bounded loop of one of
    its interactions has run out of fuel. *)
Theorem main_never_raises (fuel : nat) (inputs : list input_event)
    (st : state) (e : exn) :
  fst (main fuel inputs st) <> Raises e.
Proof.
  unfold main, bind, print; simpl.
  destruct (negb (truthy GEMINI_API_KEY)); simpl; [discriminate |].
  match goal with
  | |- fst (main_loop fuel inputs ?st1) <> _ =>
      destruct (main_loop_never_raises fuel inputs st1) as [H | H];
      rewrite H; discriminate
  end.
Qed.

(** ** Which lines reach the agent *)





(** ** The configuration check of [main] *)

(** X13.  With the values that [config_loader] has loaded, the check of
    [main] passes: its fatal branch is dead code behind a successful
    import.  With an empty key, [main] prints the error and returns
    without reading a line or contacting anyone. *)
Theorem main_configuration_check (fuel : nat) (inputs : list input_event)
    (st : state) :
  (forall environ c,
     config_loader environ = inr c -> configured_by c ->
     main fuel inputs st =
     main_loop fuel inputs
       (printed (banner ++ ["Configuration loaded successfully."]) st))
  /\ (GEMINI_API_KEY = "" ->
      main fuel inputs st =
      (Returns tt,
       printed (banner ++
                  ["FATAL CONFIGURATION ERROR: GEMINI_API_KEY is not set in the environment or .env file.";
                   "Please ensure your .env file is correctly set up in ck_assistant_py/.env"])
               st)).
Proof.
  split.
  - intros environ c Hload (Hkey & _).
    apply config_loader_loads_iff in Hload as (_ & Hne & _).
    unfold main, bind, print; simpl. rewrite Hkey.
    destruct (config_GEMINI_API_KEY c) as [| ch k]; [contradiction |].
    simpl. unfold printed; simpl. rewrite <- !app_assoc. reflexivity.
  - intros Hkey. unfold main, bind, print; simpl. rewrite Hkey; simpl.
    unfold printed; simpl. rewrite <- !app_assoc. reflexivity.
Qed.

(** ** The bound on the loop *)

Lemma tool_loop_more_fuel (fuel : nat) :
  forall r st,
    fst (tool_loop fuel r st) <> Diverges ->
    tool_loop (S fuel) r st = tool_loop fuel r st.
Proof.
  induction fuel as [| fuel IH]; intros r st Hd;
    rewrite (tool_loop_eq (S _) r); rewrite (tool_loop_eq _ r) in Hd |- *;
    unfold bind in Hd |- *;
    destruct (response_parts r st) as [[[| part0 parts] | e |] st0];
    try reflexivity;
    destruct (requests_function_call (part0 :: parts)); try reflexivity.
  - contradiction Hd. reflexivity.
  - destruct (handle_function_call part0 st0) as [[r' | e |] st1];
      try reflexivity.
    apply IH, Hd.
Qed.

(** X14.  The bound on the passes through the loop is an artefact of the
    model: a run that ends within the bound is the same run, with the
    same result, state, trace and output, under any larger bound. *)
Theorem respond_to_prompt_fuel_independent
    (fuel extra : nat) (user_prompt : string) (st : state) :
  fst (respond_to_prompt fuel user_prompt st) <> Diverges ->
  respond_to_prompt (fuel + extra) user_prompt st
  = respond_to_prompt fuel user_prompt st.
Proof.
  intros Hd.
  assert (Hstep : forall n,
            fst (respond_to_prompt n user_prompt st) <> Diverges ->
            respond_to_prompt (S n) user_prompt st
            = respond_to_prompt n user_prompt st).
  { intros n. unfold respond_to_prompt, try_except, bind.
    destruct (send_message (UserPrompt user_prompt) st)
      as [[r | e |] st1]; try reflexivity.
    intros Hn.
    rewrite tool_loop_more_fuel; [reflexivity |].
    intros Hloop. apply Hn.
    destruct (tool_loop n r st1) as [[r' | e |] st2];
      simpl in Hloop; try discriminate. reflexivity. }
  induction extra as [| extra IH].
  - rewrite Nat.add_0_r. reflexivity.
  - rewrite Nat.add_succ_r, Hstep; [exact IH |]. rewrite IH. exact Hd.
Qed.

(** ** Failures of an interaction *)


(** X16.  A reply to the prompt that has no candidates is not a
    final answer: the interaction fails on it with an exception, and
    nothing more is exchanged. *)
Theorem reply_without_candidates_fails
    (fuel : nat) (user_prompt : string) (st : state) (r : response) :
  fst (agent_send (UserPrompt user_prompt) (world st)) = AgentReplies r ->
  candidates r = [] ->
  (exists msg,
     fst (respond_to_prompt fuel user_prompt st) = Raises (PyException msg))
  /\ trace (snd (respond_to_prompt fuel user_prompt st))
     = trace st ++ [AgentCall (UserPrompt user_prompt) (AgentReplies r)].
Proof.
  intros Hsend Hc.
  assert (Hfirst : send_message (UserPrompt user_prompt) st =
                   (Returns r,
                    {| world := snd (agent_send (UserPrompt user_prompt)
                                                (world st));
                       trace := trace st
                                  ++ [AgentCall (UserPrompt user_prompt)
                                                (AgentReplies r)];
                       stdout := stdout st |})).
  { unfold send_message.
    destruct (agent_send (UserPrompt user_prompt) (world st)) as [res w].
    simpl in Hsend. subst res. reflexivity. }
  unfold respond_to_prompt, try_except, bind. rewrite Hfirst.
  rewrite tool_loop_eq. unfold bind, response_parts. rewrite Hc; simpl.
  split; [eauto | reflexivity].
Qed.

End FurtherProperties.

Section FurtherRuns.

#[local] Existing Instance Scripted.scripted_env.

(** An environment without the first key, and one whose second key is
    empty. *)
Lemma config_loader_reports_first_missing_witness :
  let no_gemini : gmap string string :=
    {[ "TEMPLATE_EXCHANGE_API_KEY" := "secret" ]} in
  let empty_key : gmap string string :=
    {[ "GEMINI_API_KEY" := "gemini-key";
       "TEMPLATE_EXCHANGE_API_KEY" := "" ]} in
  no_gemini !! "GEMINI_API_KEY" = None
  /\ empty_key !! "TEMPLATE_EXCHANGE_API_KEY" = Some ""
  /\ config_loader no_gemini
     = inl (PyException
              "GEMINI_API_KEY not found in environment variables or .env file.")
  /\ config_loader empty_key
     = inl (PyException
              "TEMPLATE_EXCHANGE_API_KEY not found in environment variables or .env file.").
Proof.
  intros no_gemini empty_key.
  split; [reflexivity |]. split; [reflexivity |]. split.
  - apply (config_loader_reports_first_missing no_gemini).
    left. reflexivity.
  - apply (config_loader_reports_first_missing empty_key).
    + intros [H | H]; vm_compute in H; discriminate.
    + right. reflexivity.
Defined.

(** A [get_template] call with an argument the schema does not have. *)
Lemma dispatch_ignores_other_arguments_witness :
  let args : gmap string pyval := {[ "session_id" := PStr "M5.S4" ]} in
  let st := Scripted.start [] [found] in
  "verbose" <> "session_id" /\ "verbose" <> "template_type"
  /\ dispatch "get_template" (<[ "verbose" := PBool true ]> args) st
     = dispatch "get_template" args st.
Proof.
  intros args st.
  split; [discriminate |]. split; [discriminate |].
  apply (dispatch_ignores_other_arguments "verbose" (PBool true) args st);
    discriminate.
Defined.

(** A reply that asks for two calls at once, against the reply that asks
    for the first of them only. *)
Lemma tool_loop_reads_first_part_witness :
  let second := FunctionCallPart "create_template"
                  {[ "session_id" := PStr "M5.S4" ]} in
  let both := {| candidates := [[fetch_call; second]];
                 response_text := AttrAbsent |} in
  let one := {| candidates := [[fetch_call]];
                response_text := AttrAbsent |} in
  let st := Scripted.start [Scripted.turn [TextPart "done"]]
                           [found; created] in
  truthy (function_call_name fetch_call) = true
  /\ tool_loop 3 both st = tool_loop 3 one st.
Proof.
  intros second both one st. split; [reflexivity |].
  apply (tool_loop_reads_first_part 3 both one fetch_call [second] [] [] []);
    reflexivity.
Defined.


(** The environment that the scripted runs are configured by, and a run
    without a key for the agent. *)
Lemma main_configuration_check_witness :
  let environ : gmap string string :=
    {[ "GEMINI_API_KEY" := "gemini-key";
       "TEMPLATE_EXCHANGE_API_KEY" := "secret";
       "TEMPLATE_EXCHANGE_API_BASE_URL" := "https://templates.example" ]} in
  let c := {| config_GEMINI_API_KEY := "gemini-key";
              config_TEMPLATE_EXCHANGE_API_KEY := "secret";
              config_TEMPLATE_EXCHANGE_API_BASE_URL :=
                "https://templates.example" |} in
  let st := Scripted.start [] [] in
  let st' := @State Scripted.unconfigured_env
               {| Scripted.agent_script := []; Scripted.http_script := [] |}
               [] [] in
  config_loader environ = inr c
  /\ @configured_by Scripted.scripted_env c
  /\ @GEMINI_API_KEY Scripted.unconfigured_env = ""
  /\ main 2 [InputLine "quit"] st =
     main_loop 2 [InputLine "quit"]
       (printed (banner ++ ["Configuration loaded successfully."]) st)
  /\ trace (snd (@main Scripted.unconfigured_env 2 [InputLine "hello"] st'))
     = [].
Proof.
  intros environ c st st'.
  assert (Hload : config_loader environ = inr c) by reflexivity.
  assert (Hconf : @configured_by Scripted.scripted_env c)
    by (repeat split; reflexivity).
  split; [exact Hload |]. split; [exact Hconf |]. split; [reflexivity |].
  split.
  - exact (proj1 (main_configuration_check 2 [InputLine "quit"] st)
             environ c Hload Hconf).
  - rewrite (proj2 (@main_configuration_check Scripted.unconfigured_env
                      2 [InputLine "hello"] st') eq_refl).
    reflexivity.
Defined.

(** A run with one pass through the loop, under the bounds 1 and 6. *)
Lemma respond_to_prompt_fuel_independent_witness :
  let st := Scripted.start
              [Scripted.turn [fetch_call]; Scripted.turn [TextPart "ok"]]
              [found] in
  fst (respond_to_prompt 1 "go" st) <> Diverges
  /\ fst (respond_to_prompt (1 + 5) "go" st) = Returns "ok".
Proof.
  intros st.
  assert (Hends : fst (respond_to_prompt 1 "go" st) <> Diverges)
    by (vm_compute; discriminate).
  split; [exact Hends |].
  rewrite (respond_to_prompt_fuel_independent 1 5 "go" st Hends).
  reflexivity.
Defined.


(** The agent answers the prompt with no candidate. *)
Lemma reply_without_candidates_fails_witness :
  let blocked := {| candidates := []; response_text := AttrAbsent |} in
  let st := Scripted.start [AgentReplies blocked] [] in
  fst (agent_send (UserPrompt "hello") (world st)) = AgentReplies blocked
  /\ candidates blocked = []
  /\ exists msg,
       fst (respond_to_prompt 2 "hello" st) = Raises (PyException msg).
Proof.
  intros blocked st.
  split; [reflexivity |]. split; [reflexivity |].
  exact (proj1 (reply_without_candidates_fails 2 "hello" st blocked
                  eq_refl eq_refl)).
Defined.

End FurtherRuns.
